(** * Job Search Dashboard backend (src/main.py): model and properties

    The SQLite table [jobs] is a list of rows in rowid order together with
    the AUTOINCREMENT counter; every route of the API is a function from the
    table (and the values it reads from the outside: the clock, the
    provider's answer, the CSV file) to a response and the table afterwards. *)

From Stdlib Require Import List String Ascii Bool Arith ZArith Lia.
From Stdlib Require Import Permutation Sorted Relations RelationClasses.
From Stdlib Require Import Structures.OrdersEx.
Import ListNotations.

Local Open Scope string_scope.
Local Open Scope list_scope.

Set Implicit Arguments.

(* ================================================================== *)
(** ** Text: the string operations of Python, pandas and SQLite used by
       the routes.  A string is a sequence of bytes; letter case is the
       ASCII one. *)
(* ================================================================== *)

Definition chars : string -> list ascii := list_ascii_of_string.
Definition text : list ascii -> string := string_of_list_ascii.

(** Python [bool(s)] of a string, as in [if status and ...]. *)
Definition truthy (s : string) : bool :=
  match s with EmptyString => false | String _ _ => true end.

(** Python [x or d] on an optional string. *)
Definition or_default (x : option string) (d : string) : string :=
  match x with
  | Some s => if truthy s then s else d
  | None => d
  end.

(** [c.lower()] on one character. *)
Definition lower_ascii (c : ascii) : ascii :=
  let n := nat_of_ascii c in
  if ((65 <=? n) && (n <=? 90))%nat then ascii_of_nat (n + 32) else c.

(** [s.lower()]. *)
Definition lower (s : string) : string := text (map lower_ascii (chars s)).

(** The characters [str.strip()] removes: tab, LF, VT, FF, CR, FS, GS, RS,
    US and space. *)
Definition is_space (c : ascii) : bool :=
  let n := nat_of_ascii c in
  (((9 <=? n) && (n <=? 13)) || ((28 <=? n) && (n <=? 32)))%nat.

Fixpoint lstrip (l : list ascii) : list ascii :=
  match l with
  | c :: l' => if is_space c then lstrip l' else l
  | [] => []
  end.

(** [s.strip()]. *)
Definition strip (s : string) : string :=
  text (rev (lstrip (rev (lstrip (chars s))))).

(** [s.split(sep)] for a one-character separator, on character lists:
    the result is never empty. *)
Fixpoint split_on (sep : ascii) (l : list ascii) : list (list ascii) :=
  match l with
  | [] => [[]]
  | c :: l' =>
      if Ascii.eqb c sep then [] :: split_on sep l'
      else match split_on sep l' with
           | w :: ws => (c :: w) :: ws
           | [] => [[c]]
           end
  end.

Definition split (sep : ascii) (s : string) : list string :=
  map text (split_on sep (chars s)).

(** [sep.join(ws)]. *)
Definition join (sep : string) (ws : list string) : string :=
  String.concat sep ws.

(** [a] is a prefix of [b], letter case ignored. *)
Fixpoint iprefix (a b : list ascii) : bool :=
  match a, b with
  | [], _ => true
  | _ :: _, [] => false
  | x :: a', y :: b' =>
      Ascii.eqb (lower_ascii x) (lower_ascii y) && iprefix a' b'
  end.

(** [k] occurs in [t] as a substring, letter case ignored. *)
Fixpoint icontains_chars (k t : list ascii) : bool :=
  iprefix k t ||
  match t with
  | [] => false
  | _ :: t' => icontains_chars k t'
  end.

Definition icontains (k t : string) : bool :=
  icontains_chars (chars k) (chars t).

(** *** SQLite's [LIKE]

    [%] stands for any run of characters, [_] for any one character, every
    other character for itself, letter case ignored; there is no escape
    character. *)
Fixpoint like_chars (p s : list ascii) : bool :=
  match p with
  | [] => match s with [] => true | _ :: _ => false end
  | c :: p' =>
      if Ascii.eqb c "%" then
        (fix skip (s : list ascii) : bool :=
           like_chars p' s ||
           match s with
           | [] => false
           | _ :: s' => skip s'
           end) s
      else
        match s with
        | [] => false
        | d :: s' =>
            (Ascii.eqb c "_" || Ascii.eqb (lower_ascii c) (lower_ascii d))
            && like_chars p' s'
        end
  end.

(** [value LIKE pattern]. *)
Definition like (value pattern : string) : bool :=
  like_chars (chars pattern) (chars value).

(** *** Python's [re], as [Series.str.contains(pat, case=False)] uses it

    [str.contains] takes its pattern as a regular expression.  The patterns
    made of ordinary characters, [.] and [|] are interpreted here; for the
    others the engine is a parameter of the model (see [str_contains]). *)
Inductive atom : Type :=
| Lit (c : ascii)
| AnyChar.

(** The characters with a meaning of their own in a pattern, [.] and [|]
    apart. *)
Definition is_meta (c : ascii) : bool :=
  existsb (Ascii.eqb c) (chars "\^$*+?{}[]()").

Fixpoint parse_seq (l : list ascii) : option (list atom) :=
  match l with
  | [] => Some []
  | c :: l' =>
      if is_meta c then None
      else match parse_seq l' with
           | Some r => Some ((if Ascii.eqb c "." then AnyChar else Lit c) :: r)
           | None => None
           end
  end.

Fixpoint parse_alts (ls : list (list ascii)) : option (list (list atom)) :=
  match ls with
  | [] => Some []
  | l :: ls' =>
      match parse_seq l, parse_alts ls' with
      | Some r, Some rs => Some (r :: rs)
      | _, _ => None
      end
  end.

(** A pattern of the fragment is an alternation of sequences of atoms. *)
Definition parse_pattern (p : string) : option (list (list atom)) :=
  parse_alts (split_on "|" (chars p)).

(** [.] matches every character but the line feed. *)
Definition atom_matches (a : atom) (c : ascii) : bool :=
  match a with
  | Lit x => Ascii.eqb (lower_ascii x) (lower_ascii c)
  | AnyChar => negb (Ascii.eqb c "010")
  end.

Fixpoint seq_matches (r : list atom) (s : list ascii) : bool :=
  match r, s with
  | [], _ => true
  | _ :: _, [] => false
  | a :: r', c :: s' => atom_matches a c && seq_matches r' s'
  end.

(** [re.search]: some alternative matches at some position. *)
Fixpoint search_chars (rs : list (list atom)) (s : list ascii) : bool :=
  existsb (fun r => seq_matches r s) rs ||
  match s with
  | [] => false
  | _ :: s' => search_chars rs s'
  end.

Definition re_search (rs : list (list atom)) (s : string) : bool :=
  search_chars rs (chars s).

(* ================================================================== *)
(** ** Dates *)
(* ================================================================== *)

(** A pandas [Timestamp], as far as [strftime('%Y-%m-%d')] and the ordering
    of days read it. *)
Record Timestamp : Type := mkTimestamp {
  year : nat;
  month : nat;
  day : nat
}.

Definition digit (n : nat) : ascii := ascii_of_nat (48 + n mod 10).

Definition zero_pad2 (n : nat) : list ascii :=
  [digit (n / 10); digit n].

Definition zero_pad4 (n : nat) : list ascii :=
  [digit (n / 1000); digit (n / 100); digit (n / 10); digit n].

(** [t.strftime('%Y-%m-%d')]. *)
Definition strftime (t : Timestamp) : string :=
  text (zero_pad4 (year t) ++ "-"%char :: zero_pad2 (month t)
        ++ "-"%char :: zero_pad2 (day t)).

Definition timestamp_compare (a b : Timestamp) : comparison :=
  match Nat.compare (year a) (year b) with
  | Eq => match Nat.compare (month a) (month b) with
          | Eq => Nat.compare (day a) (day b)
          | c => c
          end
  | c => c
  end.

(** A cell of a [date_posted] column, as [pd.to_datetime] sees it. *)
Inductive date_cell : Type :=
| NaT                      (* None, NaN, NaT: [pd.notna] is false *)
| Date (t : Timestamp)     (* a value [pd.to_datetime] converts *)
| Unparsed (s : string).   (* a value it rejects; [s] is [str] of it *)

(** [pd.to_datetime(cell, errors='coerce')]. *)
Definition to_datetime_coerce (c : date_cell) : date_cell :=
  match c with
  | Date t => Date t
  | NaT | Unparsed _ => NaT
  end.

(** The date an INSERT binds: [None] when [pd.notna] fails, the formatted
    day when [pd.to_datetime] succeeds, [str(cell)] when it raises. *)
Definition parse_date (c : date_cell) : option string :=
  match c with
  | NaT => None
  | Date t => Some (strftime t)
  | Unparsed s => Some s
  end.

(* ================================================================== *)
(** ** Data model *)
(* ================================================================== *)

(** A row of the [jobs] table.  The REAL columns are only copied, never
    computed with; they are carried as integers. *)
Record Job : Type := mkJob {
  id : Z;
  site : string;
  title : string;
  company : string;
  location : string;
  job_type : string;
  date_posted : option string;
  job_url : string;
  salary_min : option Z;
  salary_max : option Z;
  salary_source : option string;
  is_remote : bool;
  checked : bool;
  status : string;
  notes : string;
  applied_at : option string;
  created_at : string
}.

(** The table: its rows in rowid order and the largest rowid ever given
    out (AUTOINCREMENT). *)
Record Db : Type := mkDb {
  jobs : list Job;
  seq : Z
}.

(** The table [init_db] creates. *)
Definition init_db : Db := {| jobs := []; seq := 0 |}.

(** A row of a DataFrame, from the provider or from the CSV file.  The text
    cells are present; a date cell may be missing or unreadable, an amount
    may be NaN.  (A missing [job_url] would be stored as NULL, which the
    UNIQUE constraint compares with nothing.) *)
Record Row : Type := mkRow {
  row_site : string;
  row_title : string;
  row_company : string;
  row_location : string;
  row_job_type : string;
  row_date_posted : date_cell;
  row_job_url : string;
  row_min_amount : option Z;
  row_max_amount : option Z;
  row_salary_source : string;
  row_is_remote : bool
}.

Definition DataFrame : Type := list Row.

Record JobUpdate : Type := mkJobUpdate {
  update_checked : option bool;
  update_status : option string;
  update_notes : option string
}.

Record ScrapeRequest : Type := mkScrapeRequest {
  search_query : option string;
  request_location : option string;
  results_wanted : option Z;
  hours_old : option Z;
  exclude_keywords : option string
}.

(** What a route does: it returns a value, raises [HTTPException], or lets
    another exception escape. *)
Inductive response (A : Type) : Type :=
| Returned (a : A)
| HTTPException (status_code : nat) (detail : string)
| Raised (exception : string).

Arguments Returned {A} a.
Arguments HTTPException {A} status_code detail.
Arguments Raised {A} exception.

(* ================================================================== *)
(** ** SQL statements *)
(* ================================================================== *)

Definition is_new (j : Job) : bool := String.eqb (status j) "new".

Definition has_url (u : string) (rows : list Job) : bool :=
  existsb (fun j => String.eqb (job_url j) u) rows.

(** The row an INSERT of the routes creates: the bound values, the rowid,
    and the defaults of the columns it does not name. *)
Definition new_job (rowid : Z) (now : string) (r : Row)
    (date : option string) (source : option string) : Job :=
  {| id := rowid;
     site := row_site r;
     title := row_title r;
     company := row_company r;
     location := row_location r;
     job_type := row_job_type r;
     date_posted := date;
     job_url := row_job_url r;
     salary_min := row_min_amount r;
     salary_max := row_max_amount r;
     salary_source := source;
     is_remote := row_is_remote r;
     checked := false;
     status := "new";
     notes := "";
     applied_at := None;
     created_at := now |}.

Inductive sqlite_error : Type :=
| IntegrityError.

(** [INSERT OR IGNORE INTO jobs (...) VALUES (...)]: a row whose [job_url]
    is in the table already is dropped by the conflict clause of the
    statement, without an error; any other row is appended under a fresh
    rowid. *)
Definition insert_or_ignore (now : string) (r : Row)
    (date : option string) (source : option string) (db : Db)
    : sqlite_error + Db :=
  if has_url (row_job_url r) (jobs db) then inr db
  else inr {| jobs := jobs db ++ [new_job (seq db + 1) now r date source];
              seq := (seq db + 1)%Z |}.

(** [DELETE FROM jobs WHERE status = 'new']: the table afterwards and the
    rowcount. *)
Definition delete_new (db : Db) : Db * nat :=
  ({| jobs := filter (fun j => negb (is_new j)) (jobs db); seq := seq db |},
   List.length (filter is_new (jobs db))).

(** [SELECT job_url FROM jobs WHERE status != 'new']. *)
Definition select_preserved_urls (db : Db) : list string :=
  map job_url (filter (fun j => negb (is_new j)) (jobs db)).

(** [DELETE FROM jobs WHERE id = ?]. *)
Definition delete_by_id (job_id : Z) (db : Db) : Db * nat :=
  ({| jobs := filter (fun j => negb (Z.eqb (id j) job_id)) (jobs db);
      seq := seq db |},
   List.length (filter (fun j => Z.eqb (id j) job_id) (jobs db))).

(** One assignment of the SET clause [update_job] assembles. *)
Inductive assignment : Type :=
| SetChecked (b : bool)
| SetStatus (s : string)
| SetAppliedAt (d : option string)
| SetNotes (s : string).

Definition assign (a : assignment) (j : Job) : Job :=
  match a with
  | SetChecked b =>
      mkJob (id j) (site j) (title j) (company j) (location j) (job_type j)
        (date_posted j) (job_url j) (salary_min j) (salary_max j)
        (salary_source j) (is_remote j) b (status j) (notes j)
        (applied_at j) (created_at j)
  | SetStatus s =>
      mkJob (id j) (site j) (title j) (company j) (location j) (job_type j)
        (date_posted j) (job_url j) (salary_min j) (salary_max j)
        (salary_source j) (is_remote j) (checked j) s (notes j)
        (applied_at j) (created_at j)
  | SetAppliedAt d =>
      mkJob (id j) (site j) (title j) (company j) (location j) (job_type j)
        (date_posted j) (job_url j) (salary_min j) (salary_max j)
        (salary_source j) (is_remote j) (checked j) (status j) (notes j)
        d (created_at j)
  | SetNotes s =>
      mkJob (id j) (site j) (title j) (company j) (location j) (job_type j)
        (date_posted j) (job_url j) (salary_min j) (salary_max j)
        (salary_source j) (is_remote j) (checked j) (status j) s
        (applied_at j) (created_at j)
  end.

(** [UPDATE jobs SET a1, a2, ... WHERE id = ?]: the table afterwards and the
    rowcount. *)
Definition update_by_id (sets : list assignment) (job_id : Z) (db : Db)
    : Db * nat :=
  ({| jobs := map (fun j => if Z.eqb (id j) job_id
                            then fold_left (fun j a => assign a j) sets j
                            else j) (jobs db);
      seq := seq db |},
   List.length (filter (fun j => Z.eqb (id j) job_id) (jobs db))).

(** *** ORDER BY *)

(** Comparison of two values of a TEXT column: NULL is below every text,
    two texts compare byte by byte (the BINARY collation). *)
Definition sql_compare (a b : option string) : comparison :=
  match a, b with
  | None, None => Eq
  | None, Some _ => Lt
  | Some _, None => Gt
  | Some x, Some y => String_as_OT.compare x y
  end.

(** [ORDER BY date_posted DESC, created_at DESC]: [Lt] when [j] goes before
    [k], [Eq] when the clause does not tell them apart. *)
Definition order_by (j k : Job) : comparison :=
  match sql_compare (date_posted k) (date_posted j) with
  | Eq => String_as_OT.compare (created_at k) (created_at j)
  | c => c
  end.

Definition precedes (j k : Job) : bool :=
  match order_by j k with
  | Gt => false
  | _ => true
  end.

Section Sort.
Variable A : Type.
(** [before x y]: [x] may stand in front of [y]. *)
Variable before : A -> A -> bool.

Fixpoint insert_sorted (x : A) (l : list A) : list A :=
  match l with
  | [] => [x]
  | y :: l' => if before x y then x :: l else y :: insert_sorted x l'
  end.

(** A stable sort: rows the order does not tell apart keep their
    relative positions. *)
Definition sort_by (l : list A) : list A := fold_right insert_sorted [] l.
End Sort.

(* ================================================================== *)
(** ** GET /api/jobs *)
(* ================================================================== *)

Record JobList : Type := mkJobList {
  list_jobs : list Job;
  total : nat
}.

(** The WHERE clause [get_jobs] assembles from its query parameters. *)
Definition where_clause (q_status : option string) (q_checked : option bool)
    (q_search : option string) (j : Job) : bool :=
  (match q_status with
   | Some s =>
       if truthy s && negb (String.eqb s "all")
       then String.eqb (status j) s
       else true
   | None => true
   end)
  &&
  (match q_checked with
   | Some c => Bool.eqb (checked j) c
   | None => true
   end)
  &&
  (match q_search with
   | Some q =>
       if truthy q
       then let search_pattern := ("%" ++ q ++ "%")%string in
            like (title j) search_pattern
            || like (company j) search_pattern
            || like (location j) search_pattern
       else true
   | None => true
   end).

Definition get_jobs (q_status : option string) (q_checked : option bool)
    (q_search : option string) (db : Db) : JobList :=
  let rows :=
    sort_by precedes (filter (where_clause q_status q_checked q_search)
                             (jobs db)) in
  {| list_jobs := rows; total := List.length rows |}.

(* ================================================================== *)
(** ** PATCH /api/jobs/{job_id} *)
(* ================================================================== *)

(** The assignments [update_job] collects, in the order it appends them;
    [today] is [datetime.now().strftime('%Y-%m-%d')]. *)
Definition update_assignments (today : string) (update : JobUpdate)
    : list assignment :=
  (match update_checked update with
   | Some c => [SetChecked c]
   | None => []
   end)
  ++
  (match update_status update with
   | Some s =>
       SetStatus s ::
       (if String.eqb s "applied" then [SetAppliedAt (Some today)]
        else [SetAppliedAt None])
   | None => []
   end)
  ++
  (match update_notes update with
   | Some n => [SetNotes n]
   | None => []
   end).

Definition update_job (today : string) (job_id : Z) (update : JobUpdate)
    (db : Db) : response bool * Db :=
  match update_assignments today update with
  | [] => (HTTPException 400 "No updates provided", db)
  | updates =>
      let (db', rowcount) := update_by_id updates job_id db in
      if Nat.eqb rowcount 0 then (HTTPException 404 "Job not found", db')
      else (Returned true, db')
  end.

(* ================================================================== *)
(** ** DELETE /api/jobs/{job_id} *)
(* ================================================================== *)

Definition delete_job (job_id : Z) (db : Db) : response bool * Db :=
  let (db', rowcount) := delete_by_id job_id db in
  if Nat.eqb rowcount 0 then (HTTPException 404 "Job not found", db')
  else (Returned true, db').

(* ================================================================== *)
(** ** POST /api/scrape *)
(* ================================================================== *)

Record ScrapeResult : Type := mkScrapeResult {
  message : string;
  added : nat;
  skipped : nat;
  deleted : option nat;
  total_found : option nat
}.

(** [s] between double quotes. *)
Definition quoted (s : string) : string :=
  String "034" (s ++ String "034" EmptyString).

Definition default_search_query : string :=
  quoted "software engineer" ++ " OR " ++
  quoted "software developer" ++ " OR " ++
  quoted "qa engineer" ++ " OR " ++
  quoted "quality assurance engineer" ++ " OR " ++
  quoted "test engineer" ++ " OR " ++
  quoted "software test engineer" ++ " OR " ++
  quoted "Software Development Engineer".

Definition target_sites : list string :=
  ["indeed"; "linkedin"; "zip_recruiter"; "glassdoor"].

Definition default_senior_keywords : list string :=
  ["senior"; "sr."; "sr"; "lead"; "principal"; "staff"; "manager";
   "architect"; "head"; "director"].

(** The keywords of a request: the caller's list, split at the commas,
    each one stripped and lowercased, or the default list. *)
Definition senior_keywords (request : ScrapeRequest) : list string :=
  match exclude_keywords request with
  | Some ks =>
      if truthy ks then map (fun k => lower (strip k)) (split "," ks)
      else default_senior_keywords
  | None => default_senior_keywords
  end.

(** Order of [sort_values(by='date_posted', ascending=False)] on the
    coerced column: later days first, NaT last. *)
Definition newer_first (a b : Row) : bool :=
  match row_date_posted a, row_date_posted b with
  | Date x, Date y =>
      match timestamp_compare x y with Lt => false | _ => true end
  | Date _, _ => true
  | _, Date _ => false
  | _, _ => true
  end.

Definition coerce_date_posted (r : Row) : Row :=
  mkRow (row_site r) (row_title r) (row_company r) (row_location r)
    (row_job_type r) (to_datetime_coerce (row_date_posted r))
    (row_job_url r) (row_min_amount r) (row_max_amount r)
    (row_salary_source r) (row_is_remote r).

(** [df.head(n)], that is [df.iloc[:n]]. *)
Definition head (n : option Z) (df : DataFrame) : DataFrame :=
  match n with
  | None => df
  | Some n =>
      if (0 <=? n)%Z then firstn (Z.to_nat n) df
      else firstn (List.length df - Z.to_nat (- n)) df
  end.

(** [df[~df['job_url'].isin(urls)]]. *)
Definition not_isin (urls : list string) (df : DataFrame) : DataFrame :=
  filter (fun r => negb (existsb (String.eqb (row_job_url r)) urls)) df.

(** The insert loop of [scrape_new_jobs]: the [i]-th statement runs at
    [clock i]; a statement that returns counts as added, one that raises
    [IntegrityError] as skipped. *)
Fixpoint scrape_insert_rows (clock : nat -> string) (i : nat)
    (rows : DataFrame) (db : Db) (added skipped : nat) : Db * nat * nat :=
  match rows with
  | [] => (db, added, skipped)
  | row :: rows' =>
      match insert_or_ignore (clock i) row
              (parse_date (row_date_posted row))
              (Some (row_salary_source row)) db with
      | inr db' => scrape_insert_rows clock (S i) rows' db' (S added) skipped
      | inl IntegrityError =>
          scrape_insert_rows clock (S i) rows' db added (S skipped)
      end
  end.

Section Scrape.
(** Whether the import of jobspy succeeded when the module was loaded. *)
Variable JOBSPY_AVAILABLE : bool.

(** The provider: [scrape_jobs(site_name, search_term, location,
    results_wanted, hours_old, country_indeed)] returns a DataFrame or
    raises; [inl e] stands for an exception whose [str] is [e]. *)
Variable scrape_jobs :
  list string -> string -> option string -> option Z -> option Z ->
  string -> string + DataFrame.

(** [re.compile(pattern, re.IGNORECASE)] on the patterns outside the
    fragment interpreted by [parse_pattern]: [None] when it raises
    [re.error], else the predicate [search(title) is not None]. *)
Variable re_compile : string -> option (string -> bool).

(** The value of CURRENT_TIMESTAMP at the [i]-th INSERT of the call. *)
Variable clock : nat -> string.

(** [Series.str.contains(pattern, case=False, na=False)]. *)
Definition str_contains (pattern : string) : option (string -> bool) :=
  match parse_pattern pattern with
  | Some rs => Some (re_search rs)
  | None => re_compile pattern
  end.

Definition scrape_new_jobs (request : ScrapeRequest) (db : Db)
    : response ScrapeResult * Db :=
  if negb JOBSPY_AVAILABLE then
    (HTTPException 500
       "jobspy not installed. Run: pip install python-jobspy", db)
  else
    let search_term := or_default (search_query request)
                                  default_search_query in
    match scrape_jobs target_sites search_term (request_location request)
            (results_wanted request) (hours_old request) "USA" with
    | inl e => (HTTPException 500 ("Scraping failed: " ++ e), db)
    | inr jobs_df =>
        match jobs_df with
        | [] =>
            (Returned {| message := "No jobs found"; added := 0;
                         skipped := 0; deleted := None;
                         total_found := None |}, db)
        | _ :: _ =>
            let pattern := join "|" (senior_keywords request) in
            match str_contains pattern with
            | None => (Raised "re.error", db)
            | Some contains =>
                let filtered_df :=
                  filter (fun r => negb (contains (row_title r))) jobs_df in
                let filtered_df :=
                  sort_by newer_first (map coerce_date_posted filtered_df) in
                let filtered_df := head (results_wanted request) filtered_df in
                let preserved_urls := select_preserved_urls db in
                let (db, deleted) := delete_new db in
                let filtered_df := not_isin preserved_urls filtered_df in
                let '(db, added, skipped) :=
                  scrape_insert_rows clock 0 filtered_df db 0 0 in
                (Returned {| message := "Scraping complete";
                             added := added;
                             skipped := skipped;
                             deleted := Some deleted;
                             total_found := Some (List.length filtered_df) |},
                 db)
            end
        end
    end.
End Scrape.

(* ================================================================== *)
(** ** POST /api/import-csv *)
(* ================================================================== *)

(** The insert loop of [import_csv]: [added] grows when the statement
    returns; an exception is passed over. *)
Fixpoint import_insert_rows (clock : nat -> string) (i : nat)
    (rows : DataFrame) (db : Db) (added : nat) : Db * nat :=
  match rows with
  | [] => (db, added)
  | row :: rows' =>
      match insert_or_ignore (clock i) row
              (parse_date (row_date_posted row)) None db with
      | inr db' => import_insert_rows clock (S i) rows' db' (S added)
      | inl _ => import_insert_rows clock (S i) rows' db added
      end
  end.

(** [csv] is the content of recent_non_senior_jobs.csv as [pd.read_csv]
    returns it, [None] when the file does not exist.  The route returns the
    message "Imported {added} jobs from CSV"; the model returns [added]. *)
Definition import_csv (clock : nat -> string) (csv : option DataFrame)
    (db : Db) : response nat * Db :=
  match csv with
  | None => (HTTPException 404 "CSV file not found", db)
  | Some df =>
      let (db', added) := import_insert_rows clock 0 df db 0 in
      (Returned added, db')
  end.

(* ================================================================== *)
(** ** GET /api/stats *)
(* ================================================================== *)

Record Stats : Type := mkStats {
  stats_total : nat;
  by_status : list (string * nat);
  stats_checked : nat;
  unchecked : nat;
  by_site : list (string * nat)
}.

Definition text_leb (a b : string) : bool :=
  match String_as_OT.compare a b with
  | Gt => false
  | _ => true
  end.

(** [SELECT key, COUNT of the rows FROM jobs GROUP BY key], read into a
    dict: one entry for each value of the column, in the order of the
    values, with the number of records that have it. *)
Definition group_count (key : Job -> string) (rows : list Job)
    : list (string * nat) :=
  map (fun k =>
         (k, List.length (filter (fun j => String.eqb (key j) k) rows)))
      (sort_by text_leb (nodup string_dec (map key rows))).

(** [d.get(k)]. *)
Fixpoint dict_get (k : string) (d : list (string * nat)) : option nat :=
  match d with
  | [] => None
  | (k', v) :: d' => if String.eqb k' k then Some v else dict_get k d'
  end.

Definition get_stats (db : Db) : Stats :=
  let total := List.length (jobs db) in
  let checked_count := List.length (filter checked (jobs db)) in
  {| stats_total := total;
     by_status := group_count status (jobs db);
     stats_checked := checked_count;
     unchecked := total - checked_count;
     by_site := group_count site (jobs db) |}.

(* ================================================================== *)
(** ** Vocabulary of the properties, and sample data *)
(* ================================================================== *)

(** What [update_job] leaves in [applied_at] when it is given a status. *)
Definition recomputed_applied_at (today s : string) : option string :=
  if String.eqb s "applied" then Some today else None.

(** A record the user has acted on. *)
Definition curated (j : Job) : bool := negb (is_new j).

(** The UNIQUE constraint on [job_url]. *)
Definition url_unique (db : Db) : Prop := NoDup (map job_url (jobs db)).

(** The rows a run of inserts appends: each has status "new" and the URL
    of one of the rows it was given. *)
Definition appended_from (rows : DataFrame) (j : Job) : Prop :=
  status j = "new" /\ In (job_url j) (map row_job_url rows).




(** The operations that write to the table, each with what it reads from
    the outside. *)
Inductive operation : Type :=
| Insert (now : string) (r : Row) (date source : option string)
| ImportCsv (clock : nat -> string) (csv : option DataFrame)
| Reconcile (available : bool)
    (provider : list string -> string -> option string -> option Z ->
                option Z -> string -> string + DataFrame)
    (re_compile : string -> option (string -> bool))
    (clock : nat -> string) (request : ScrapeRequest)
| Update (today : string) (job_id : Z) (update : JobUpdate)
| Delete (job_id : Z).

Definition step (db : Db) (o : operation) : Db :=
  match o with
  | Insert now r date source =>
      match insert_or_ignore now r date source db with
      | inr db' => db'
      | inl _ => db
      end
  | ImportCsv clock csv => snd (import_csv clock csv db)
  | Reconcile available provider re_compile clock request =>
      snd (scrape_new_jobs available provider re_compile clock request db)
  | Update today job_id update => snd (update_job today job_id update db)
  | Delete job_id => snd (delete_job job_id db)
  end.

Definition run (ops : list operation) (db : Db) : Db := fold_left step ops db.

(** A character that stands for itself in a pattern. *)
Definition plain_char (c : ascii) : bool :=
  negb (is_meta c) && negb (Ascii.eqb c ".") && negb (Ascii.eqb c "|").

(** A keyword without a character that has a meaning in a pattern. *)
Definition plain (k : string) : bool := forallb plain_char (chars k).

(** The columns [update_job] has no assignment for. *)
Definition same_listing (j j' : Job) : Prop :=
  id j' = id j /\ site j' = site j /\ title j' = title j
  /\ company j' = company j /\ location j' = location j
  /\ job_type j' = job_type j /\ date_posted j' = date_posted j
  /\ job_url j' = job_url j /\ salary_min j' = salary_min j
  /\ salary_max j' = salary_max j /\ salary_source j' = salary_source j
  /\ is_remote j' = is_remote j /\ created_at j' = created_at j.

(** What [update_job] does to one record. *)
Definition updated (today : string) (job_id : Z) (update : JobUpdate)
    (j : Job) : Job :=
  if Z.eqb (id j) job_id
  then fold_left (fun j a => assign a j) (update_assignments today update) j
  else j.

(** A search term without the wildcards of LIKE. *)
Definition no_wildcard (q : string) : bool :=
  forallb (fun c => negb (Ascii.eqb c "%") && negb (Ascii.eqb c "_"))
          (chars q).

(** The rowids of the table are distinct and none is above the counter. *)
Definition ids_fresh (db : Db) : Prop :=
  NoDup (map id (jobs db))
  /\ Forall (fun j => (id j <= seq db)%Z) (jobs db).

(** [applied_at] is set exactly on the records whose status is
    "applied". *)
Definition applied_consistent (db : Db) : Prop :=
  Forall (fun j => applied_at j <> None <-> status j = "applied") (jobs db).

(** A record as an INSERT of the routes leaves it, made after the counter
    stood at [low]. *)
Definition created_after (low : Z) (source : Row -> option string)
    (rows : DataFrame) (j : Job) : Prop :=
  exists (r : Row) (now : string) (rowid : Z),
    In r rows /\ (low < rowid)%Z
    /\ j = new_job rowid now r (parse_date (row_date_posted r)) (source r).

(** The rows of the provider in the order in which they are truncated. *)
Definition ranked (df : DataFrame) : DataFrame :=
  sort_by newer_first (map coerce_date_posted df).

(** The table after the INSERT statements of a loop over [rows], the
    [i]-th one run at [clock i]; [source] gives the [salary_source] the
    loop binds. *)
Fixpoint inserted_table (source : Row -> option string)
    (clock : nat -> string) (i : nat) (rows : DataFrame) (db : Db) : Db :=
  match rows with
  | [] => db
  | r :: rows' =>
      inserted_table source clock (S i) rows'
        (match insert_or_ignore (clock i) r
                 (parse_date (row_date_posted r)) (source r) db with
         | inr db' => db'
         | inl _ => db
         end)
  end.

(** The number of records whose column [key] has the value [k]. *)
Definition count_with (key : Job -> string) (k : string) (rows : list Job)
    : nat :=
  List.length (filter (fun j => String.eqb (key j) k) rows).

(** The predicate [str.contains] applies under the default list. *)
Definition default_contains : string -> bool :=
  re_search (match parse_pattern (join "|" default_senior_keywords) with
             | Some rs => rs
             | None => []
             end).

Definition sample_row (url title : string) : Row :=
  {| row_site := "indeed"; row_title := title; row_company := "Acme";
     row_location := "Remote"; row_job_type := "fulltime";
     row_date_posted := Date (mkTimestamp 2024 5 17);
     row_job_url := url; row_min_amount := None; row_max_amount := None;
     row_salary_source := ""; row_is_remote := true |}.

Definition sample_job (rowid : Z) (url st : string) (applied : option string)
    : Job :=
  {| id := rowid; site := "linkedin"; title := "Engineer";
     company := "Initech"; location := "Austin"; job_type := "fulltime";
     date_posted := Some "2024-05-01"; job_url := url; salary_min := None;
     salary_max := None; salary_source := Some ""; is_remote := false;
     checked := true; status := st; notes := "call back";
     applied_at := applied; created_at := "2024-05-02 08:00:00" |}.

(** A table with one curated record and one unreviewed record. *)
Definition sample_db : Db :=
  {| jobs := [sample_job 1 "u1" "applied" (Some "2024-05-03");
              sample_job 2 "u2" "new" None];
     seq := 2 |}.

Definition sample_clock (i : nat) : string := "2024-05-20 12:00:00".

(** The request with the defaults of [ScrapeRequest]. *)
Definition default_request : ScrapeRequest :=
  {| search_query := None; request_location := Some "USA";
     results_wanted := Some 100%Z; hours_old := Some 72%Z;
     exclude_keywords := None |}.

(** A provider that returns [df] whatever it is asked. *)
Definition provider_returning (df : DataFrame)
    : list string -> string -> option string -> option Z -> option Z ->
      string -> string + DataFrame :=
  fun _ _ _ _ _ _ => inr df.

(** A provider whose call raises with message [e]. *)
Definition provider_raising (e : string)
    : list string -> string -> option string -> option Z -> option Z ->
      string -> string + DataFrame :=
  fun _ _ _ _ _ _ => inl e.

(** An engine that rejects every pattern it is asked about. *)
Definition no_other_pattern : string -> option (string -> bool) :=
  fun _ => None.

Unset Implicit Arguments.

(* ================================================================== *)
(** ** Properties of PATCH /api/jobs/{job_id} *)
(* ================================================================== *)

Lemma assign_id (a : assignment) (j : Job) : id (assign a j) = id j.
Proof. destruct a; reflexivity. Qed.





(** The assignments when a status is supplied: the status, then
    [applied_at], between those of [checked] and [notes]. *)
Lemma update_assignments_status (today : string) (c : option bool)
    (s : string) (n : option string) :
  update_assignments today (mkJobUpdate c (Some s) n)
  = (match c with Some b => [SetChecked b] | None => [] end)
    ++ [SetStatus s; SetAppliedAt (recomputed_applied_at today s)]
    ++ (match n with Some x => [SetNotes x] | None => [] end).
Proof.
  unfold update_assignments, recomputed_applied_at; simpl.
  destruct (String.eqb s "applied"); reflexivity.
Qed.

(** C3. After an update that supplies a status [s], every record with the
    given id has status [s] and an [applied_at] that is the current date
    when [s] is "applied" and NULL otherwise, whatever its status and
    [applied_at] were before, so [applied_at] is non-null exactly when [s]
    is "applied"; the other records are unchanged.  An update that supplies
    no status leaves [applied_at] and [status] of every record as they
    were. *)
Theorem update_job_applied_at (today : string) (job_id : Z)
    (c : option bool) (n : option string) (db : Db) :
  (forall s : string,
     Forall2
       (fun j j' =>
          if Z.eqb (id j) job_id
          then status j' = s
               /\ (applied_at j' <> None <-> s = "applied")
               /\ (s = "applied" -> applied_at j' = Some today)
               /\ (s <> "applied" -> applied_at j' = None)
          else j' = j)
       (jobs db)
       (jobs (snd (update_job today job_id (mkJobUpdate c (Some s) n) db)))
     /\ (existsb (fun j => Z.eqb (id j) job_id) (jobs db) = true ->
         fst (update_job today job_id (mkJobUpdate c (Some s) n) db)
         = Returned true))
  /\
  Forall2
    (fun j j' => applied_at j' = applied_at j /\ status j' = status j)
    (jobs db)
    (jobs (snd (update_job today job_id (mkJobUpdate c None n) db))).
Proof.
  split.
  - intro s. split.
    + unfold update_job. rewrite update_assignments_status.
      assert (Hcore :
        Forall2
          (fun j j' =>
             if Z.eqb (id j) job_id
             then status j' = s
                  /\ (applied_at j' <> None <-> s = "applied")
                  /\ (s = "applied" -> applied_at j' = Some today)
                  /\ (s <> "applied" -> applied_at j' = None)
             else j' = j)
          (jobs db)
          (jobs (fst (update_by_id
             ((match c with Some b => [SetChecked b] | None => [] end)
              ++ [SetStatus s; SetAppliedAt (recomputed_applied_at today s)]
              ++ (match n with Some x => [SetNotes x] | None => [] end))
             job_id db)))).
      { unfold update_by_id; simpl.
        induction (jobs db) as [|j l IH]; simpl; constructor; auto.
        destruct (Z.eqb (id j) job_id); [|reflexivity].
        unfold recomputed_applied_at.
        destruct (String.eqb_spec s "applied") as [He|Hne];
          destruct c, n; simpl; repeat split;
          try reflexivity; try congruence; try tauto;
          intros; try discriminate; try congruence. }
      destruct ((match c with Some b => [SetChecked b] | None => [] end)
                ++ [SetStatus s; SetAppliedAt (recomputed_applied_at today s)]
                ++ (match n with Some x => [SetNotes x] | None => [] end))
        as [|a sets] eqn:E.
      { destruct c; discriminate. }
      unfold update_by_id in *; simpl in *.
      match goal with |- context [Nat.eqb ?k 0] => destruct (Nat.eqb k 0) end;
        simpl; exact Hcore.
    + intro Hex. unfold update_job. rewrite update_assignments_status.
      destruct ((match c with Some b => [SetChecked b] | None => [] end)
                ++ [SetStatus s; SetAppliedAt (recomputed_applied_at today s)]
                ++ (match n with Some x => [SetNotes x] | None => [] end))
        as [|a sets] eqn:E.
      { destruct c; discriminate. }
      unfold update_by_id; simpl.
      assert (Hlen : List.length (filter (fun j => Z.eqb (id j) job_id)
                                         (jobs db)) <> 0).
      { apply existsb_exists in Hex. destruct Hex as [j [Hin Hj]].
        intro H0. apply length_zero_iff_nil in H0.
        assert (Hf : In j (filter (fun j => Z.eqb (id j) job_id) (jobs db)))
          by (apply filter_In; auto).
        rewrite H0 in Hf. exact Hf. }
      apply Nat.eqb_neq in Hlen. rewrite Hlen. reflexivity.
  - unfold update_job, update_assignments; simpl.
    destruct c as [b|], n as [x|]; simpl;
      try (match goal with
           | |- context [Nat.eqb ?k 0] => destruct (Nat.eqb k 0)
           end; simpl);
      induction (jobs db) as [|j l IH]; simpl; constructor; auto;
      destruct (Z.eqb (id j) job_id); simpl; auto.
Qed.

(** C6. An update with no field fails with status code 400, whatever the
    id, and the table is the one it was given. *)
Theorem update_job_empty (today : string) (job_id : Z) (db : Db) :
  update_job today job_id (mkJobUpdate None None None) db
  = (HTTPException 400 "No updates provided", db).
Proof. reflexivity. Qed.

(* ================================================================== *)
(** ** Properties of INSERT OR IGNORE and of the insert loops *)
(* ================================================================== *)

Lemma has_url_In (u : string) (rows : list Job) :
  has_url u rows = true <-> In u (map job_url rows).
Proof.
  unfold has_url. rewrite existsb_exists, in_map_iff.
  split; intros [j [H1 H2]]; exists j.
  - apply String.eqb_eq in H2. auto.
  - split; [assumption | apply String.eqb_eq; assumption].
Qed.

Lemma has_url_not_In (u : string) (rows : list Job) :
  has_url u rows = false <-> ~ In u (map job_url rows).
Proof.
  rewrite <- has_url_In. destruct (has_url u rows); split; intro H;
    try reflexivity; try discriminate; try congruence.
Qed.

(** The statement never raises. *)
Lemma insert_or_ignore_returns (now : string) (r : Row)
    (date source : option string) (db : Db) :
  exists db', insert_or_ignore now r date source db = inr db'.
Proof.
  unfold insert_or_ignore.
  destruct (has_url (row_job_url r) (jobs db)); eauto.
Qed.

(** What one statement does to the table. *)
Lemma insert_or_ignore_cases (now : string) (r : Row)
    (date source : option string) (db db' : Db) :
  insert_or_ignore now r date source db = inr db' ->
  (has_url (row_job_url r) (jobs db) = true /\ db' = db)
  \/ (has_url (row_job_url r) (jobs db) = false
      /\ jobs db' = jobs db ++ [new_job (seq db + 1) now r date source]).
Proof.
  unfold insert_or_ignore.
  destruct (has_url (row_job_url r) (jobs db)); intro H;
    inversion H; subst; auto.
Qed.

Lemma insert_or_ignore_unique (now : string) (r : Row)
    (date source : option string) (db db' : Db) :
  insert_or_ignore now r date source db = inr db' ->
  url_unique db -> url_unique db'.
Proof.
  intros H U. apply insert_or_ignore_cases in H.
  destruct H as [[_ ->] | [Hn Hj]]; [assumption|].
  unfold url_unique in *. rewrite Hj, map_app. simpl.
  apply NoDup_app_remove_l with (l := []). simpl.
  apply Permutation_NoDup with (l := row_job_url r :: map job_url (jobs db)).
  - apply Permutation_cons_append.
  - constructor; [apply has_url_not_In; assumption | assumption].
Qed.

Lemma appended_from_cons (r : Row) (rows : DataFrame) (ins : list Job) :
  Forall (appended_from rows) ins -> Forall (appended_from (r :: rows)) ins.
Proof.
  apply Forall_impl. intros j [H1 H2]. split; [assumption | right; assumption].
Qed.

Lemma scrape_insert_rows_spec (clock : nat -> string) (rows : DataFrame) :
  forall (i : nat) (db : Db) (a s : nat),
  exists ins : list Job,
    jobs (fst (fst (scrape_insert_rows clock i rows db a s))) = jobs db ++ ins
    /\ Forall (appended_from rows) ins
    /\ snd (fst (scrape_insert_rows clock i rows db a s))
       = a + List.length rows
    /\ snd (scrape_insert_rows clock i rows db a s) = s.
Proof.
  induction rows as [|r rows IH]; intros i db a s; simpl.
  - exists []. rewrite app_nil_r. repeat split; auto.
  - destruct (insert_or_ignore (clock i) r (parse_date (row_date_posted r))
                (Some (row_salary_source r)) db) as [e|db'] eqn:E.
    + destruct (insert_or_ignore_returns (clock i) r
                  (parse_date (row_date_posted r))
                  (Some (row_salary_source r)) db) as [x Hx].
      congruence.
    + destruct (IH (S i) db' (S a) s) as [ins [H1 [H2 [H3 H4]]]].
      apply insert_or_ignore_cases in E.
      destruct E as [[_ ->] | [_ Hj]].
      * exists ins. repeat split; auto using appended_from_cons. lia.
      * exists (new_job (seq db + 1) (clock i) r
                  (parse_date (row_date_posted r))
                  (Some (row_salary_source r)) :: ins).
        rewrite H1, Hj, <- app_assoc. simpl. repeat split; auto; [|lia].
        constructor; [|auto using appended_from_cons].
        split; [reflexivity | left; reflexivity].
Qed.

Lemma scrape_insert_rows_unique (clock : nat -> string) (rows : DataFrame) :
  forall (i : nat) (db : Db) (a s : nat),
  url_unique db ->
  url_unique (fst (fst (scrape_insert_rows clock i rows db a s))).
Proof.
  induction rows as [|r rows IH]; intros i db a s U; simpl; [assumption|].
  destruct (insert_or_ignore (clock i) r (parse_date (row_date_posted r))
              (Some (row_salary_source r)) db) as [[]|db'] eqn:E.
  - apply IH; assumption.
  - apply IH. eapply insert_or_ignore_unique; eassumption.
Qed.

Lemma import_insert_rows_spec (clock : nat -> string) (rows : DataFrame) :
  forall (i : nat) (db : Db) (a : nat),
  exists ins : list Job,
    jobs (fst (import_insert_rows clock i rows db a)) = jobs db ++ ins
    /\ Forall (appended_from rows) ins
    /\ snd (import_insert_rows clock i rows db a) = a + List.length rows.
Proof.
  induction rows as [|r rows IH]; intros i db a; simpl.
  - exists []. rewrite app_nil_r. repeat split; auto.
  - destruct (insert_or_ignore (clock i) r (parse_date (row_date_posted r))
                None db) as [e|db'] eqn:E.
    + destruct (insert_or_ignore_returns (clock i) r
                  (parse_date (row_date_posted r)) None db) as [x Hx].
      congruence.
    + destruct (IH (S i) db' (S a)) as [ins [H1 [H2 H3]]].
      apply insert_or_ignore_cases in E.
      destruct E as [[_ ->] | [_ Hj]].
      * exists ins. repeat split; auto using appended_from_cons. lia.
      * exists (new_job (seq db + 1) (clock i) r
                  (parse_date (row_date_posted r)) None :: ins).
        rewrite H1, Hj, <- app_assoc. simpl. repeat split; auto; [|lia].
        constructor; [|auto using appended_from_cons].
        split; [reflexivity | left; reflexivity].
Qed.


(** A DELETE keeps the URLs of the table distinct. *)
Lemma filter_keeps_urls_distinct (keep : Job -> bool) (rows : list Job) :
  NoDup (map job_url rows) -> NoDup (map job_url (filter keep rows)).
Proof.
  intro Hnd. induction rows as [|j rows IH]; simpl in *; [constructor|].
  apply NoDup_cons_iff in Hnd. destruct Hnd as [Hnin Hnd].
  destruct (keep j); simpl; [|auto].
  apply NoDup_cons_iff. split; [|auto].
  rewrite in_map_iff. intros [k [Hk Hin]]. apply Hnin.
  rewrite <- Hk. apply in_map. apply filter_In in Hin. tauto.
Qed.

(* ================================================================== *)
(** ** Properties of POST /api/scrape *)
(* ================================================================== *)

Lemma filter_filter_same (A : Type) (p : A -> bool) (l : list A) :
  filter p (filter p l) = filter p l.
Proof.
  induction l as [|x l IH]; simpl; [reflexivity|].
  destruct (p x) eqn:E; simpl; [rewrite E, IH|]; auto.
Qed.

Lemma filter_none (A : Type) (p : A -> bool) (l : list A) :
  Forall (fun x => p x = false) l -> filter p l = [].
Proof.
  induction 1 as [|x l Hx _ IH]; simpl; [reflexivity|].
  rewrite Hx. exact IH.
Qed.

Lemma not_isin_In (urls : list string) (df : DataFrame) (u : string) :
  In u (map row_job_url (not_isin urls df)) -> ~ In u urls.
Proof.
  unfold not_isin. intros H Hin. apply in_map_iff in H.
  destruct H as [r [<- Hr]]. apply filter_In in Hr. destruct Hr as [_ Hr].
  apply negb_true_iff in Hr.
  assert (Ht : existsb (String.eqb (row_job_url r)) urls = true).
  { apply existsb_exists. exists (row_job_url r). split; [assumption|].
    apply String.eqb_refl. }
  congruence.
Qed.

Section ScrapeProperties.
Variable JOBSPY_AVAILABLE : bool.
Variable scrape_jobs :
  list string -> string -> option string -> option Z -> option Z ->
  string -> string + DataFrame.
Variable re_compile : string -> option (string -> bool).
Variable clock : nat -> string.

Local Abbreviation scrape :=
  (scrape_new_jobs JOBSPY_AVAILABLE scrape_jobs re_compile clock).

(** The table after a reconciliation: the one before, or the curated
    records of the one before followed by the rows the insert loop
    appended, taken from a DataFrame without the preserved URLs. *)
Lemma scrape_new_jobs_db (request : ScrapeRequest) (db : Db) :
  snd (scrape request db) = db
  \/ exists (df : DataFrame) (ins : list Job),
       jobs (snd (scrape request db)) = filter curated (jobs db) ++ ins
       /\ Forall (appended_from (not_isin (select_preserved_urls db) df))
                 ins
       /\ (url_unique db -> url_unique (snd (scrape request db))).
Proof.
  unfold scrape_new_jobs.
  destruct JOBSPY_AVAILABLE; simpl; [|left; reflexivity].
  destruct (scrape_jobs _ _ _ _ _ _) as [e|[|r0 jobs_df]];
    [left; reflexivity | left; reflexivity |].
  destruct (str_contains re_compile _) as [contains|];
    [|left; reflexivity].
  right.
  set (df0 := head (results_wanted request) _).
  set (df := not_isin (select_preserved_urls db) df0).
  set (db1 := {| jobs := filter (fun j => negb (is_new j)) (jobs db);
                 seq := seq db |}).
  destruct (scrape_insert_rows_spec clock df 0 db1 0 0)
    as [ins [H1 [H2 _]]].
  pose proof (scrape_insert_rows_unique clock df 0 db1 0 0) as HU.
  destruct (scrape_insert_rows clock 0 df db1 0 0) as [[db2 a] s].
  simpl in *. exists df0, ins. split; [exact H1|]. split; [exact H2|].
  intro U. apply HU. unfold url_unique, db1; simpl.
  apply filter_keeps_urls_distinct. exact U.
Qed.

(** C2. A reconciliation leaves the records whose status is not "new" as
    they were, each one once and in the same order, whatever the provider
    returns; and the table afterwards is either the table before, or its
    curated records followed by inserted rows, none of which has the URL
    of a curated record. *)
Theorem scrape_preserves_curated (request : ScrapeRequest) (db : Db) :
  filter curated (jobs (snd (scrape request db)))
  = filter curated (jobs db)
  /\ (jobs (snd (scrape request db)) = jobs db
      \/ exists inserted : list Job,
           jobs (snd (scrape request db))
           = filter curated (jobs db) ++ inserted
           /\ Forall (fun j =>
                        status j = "new"
                        /\ ~ In (job_url j)
                                (map job_url (filter curated (jobs db))))
                     inserted).
Proof.
  destruct (scrape_new_jobs_db request db) as [-> | [df [ins [H1 [H2 _]]]]].
  - split; [reflexivity | left; reflexivity].
  - assert (H3 : Forall (fun j =>
                   status j = "new"
                   /\ ~ In (job_url j)
                           (map job_url (filter curated (jobs db)))) ins).
    { revert H2. apply Forall_impl. intros j [Hs Hu]. split; [exact Hs|].
      apply not_isin_In in Hu. exact Hu. }
    split.
    + rewrite H1, filter_app, filter_filter_same.
      rewrite (filter_none _ curated ins).
      * apply app_nil_r.
      * revert H3. apply Forall_impl. intros j [Hs _].
        unfold curated, is_new. rewrite Hs. reflexivity.
    + right. exists ins. split; assumption.
Qed.

End ScrapeProperties.

(** C5. When the call of the provider raises, the reconciliation raises
    [HTTPException] with status code 500 and the message of the failure,
    and the table is the one it was given: nothing is deleted and nothing
    inserted. *)
Theorem scrape_provider_failure
    (scrape_jobs : list string -> string -> option string -> option Z ->
                   option Z -> string -> string + DataFrame)
    (re_compile : string -> option (string -> bool))
    (clock : nat -> string) (request : ScrapeRequest) (db : Db) (e : string)
    (Hraise : scrape_jobs target_sites
                (or_default (search_query request) default_search_query)
                (request_location request) (results_wanted request)
                (hours_old request) "USA" = inl e) :
  scrape_new_jobs true scrape_jobs re_compile clock request db
  = (HTTPException 500 ("Scraping failed: " ++ e), db).
Proof.
  unfold scrape_new_jobs; simpl. rewrite Hraise. reflexivity.
Qed.

(** C9. When the provider returns no record, the reconciliation returns
    added = 0 and skipped = 0, reports no deletion, and the table is the
    one it was given. *)
Theorem scrape_no_jobs_found
    (scrape_jobs : list string -> string -> option string -> option Z ->
                   option Z -> string -> string + DataFrame)
    (re_compile : string -> option (string -> bool))
    (clock : nat -> string) (request : ScrapeRequest) (db : Db)
    (Hempty : scrape_jobs target_sites
                (or_default (search_query request) default_search_query)
                (request_location request) (results_wanted request)
                (hours_old request) "USA" = inr []) :
  scrape_new_jobs true scrape_jobs re_compile clock request db
  = (Returned {| message := "No jobs found"; added := 0; skipped := 0;
                 deleted := None; total_found := None |}, db).
Proof.
  unfold scrape_new_jobs; simpl. rewrite Hempty. reflexivity.
Qed.

(* ================================================================== *)
(** ** Properties of GET /api/jobs *)
(* ================================================================== *)









Section SortProperties.
Variable A : Type.
Variable before : A -> A -> bool.
Hypothesis before_total :
  forall x y, before x y = false -> before y x = true.

Lemma insert_sorted_perm (x : A) (l : list A) :
  Permutation (x :: l) (insert_sorted before x l).
Proof.
  induction l as [|y l IH]; simpl; [apply Permutation_refl|].
  destruct (before x y); [apply Permutation_refl|].
  eapply perm_trans; [apply perm_swap|]. apply perm_skip. exact IH.
Qed.

Lemma sort_by_perm (l : list A) : Permutation l (sort_by before l).
Proof.
  induction l as [|x l IH]; simpl; [constructor|].
  eapply perm_trans; [apply perm_skip; exact IH|].
  apply insert_sorted_perm.
Qed.

Lemma insert_sorted_hd (x y : A) (l : list A) :
  before y x = true ->
  HdRel (fun a b => before a b = true) y l ->
  HdRel (fun a b => before a b = true) y (insert_sorted before x l).
Proof.
  intros Hyx Hl. destruct l as [|z l]; simpl.
  - constructor. exact Hyx.
  - destruct (before x z); constructor; [exact Hyx|].
    inversion Hl; assumption.
Qed.

Lemma insert_sorted_sorted (x : A) (l : list A) :
  Sorted (fun a b => before a b = true) l ->
  Sorted (fun a b => before a b = true) (insert_sorted before x l).
Proof.
  induction 1 as [|y l Hs IH Hhd]; simpl.
  - repeat constructor.
  - destruct (before x y) eqn:E.
    + constructor; [constructor; assumption | constructor; exact E].
    + constructor; [exact IH|].
      apply insert_sorted_hd; [apply before_total; exact E | exact Hhd].
Qed.

Lemma sort_by_sorted (l : list A) :
  Sorted (fun a b => before a b = true) (sort_by before l).
Proof.
  induction l as [|x l IH]; simpl; [constructor|].
  apply insert_sorted_sorted. exact IH.
Qed.
End SortProperties.



(** C10. With the empty string as status, [get_jobs] answers as it does
    without a status and as it does with "all": every record passes the
    status condition. *)
Theorem get_jobs_empty_status (q_checked : option bool)
    (q_search : option string) (db : Db) :
  get_jobs (Some "") q_checked q_search db
  = get_jobs None q_checked q_search db
  /\ get_jobs (Some "") q_checked q_search db
     = get_jobs (Some "all") q_checked q_search db
  /\ (forall j : Job, where_clause (Some "") None None j = true).
Proof.
  repeat split.
Qed.

(* ================================================================== *)
(** ** Uniqueness of job_url over sequences of operations *)
(* ================================================================== *)






(* ================================================================== *)
(** ** Concrete runs *)
(* ================================================================== *)

(** For every run of the insert loop of [scrape_new_jobs], [added] grows by
    the number of rows and [skipped] stays: every reconciliation that runs
    to its end returns skipped = 0 and added = total_found. *)
Lemma scrape_new_jobs_counts (available : bool)
    (scrape_jobs : list string -> string -> option string -> option Z ->
                   option Z -> string -> string + DataFrame)
    (re_compile : string -> option (string -> bool))
    (clock : nat -> string) (request : ScrapeRequest) (db : Db)
    (res : ScrapeResult) :
  fst (scrape_new_jobs available scrape_jobs re_compile clock request db)
  = Returned res ->
  skipped res = 0
  /\ (forall n, total_found res = Some n -> added res = n).
Proof.
  unfold scrape_new_jobs.
  destruct available; simpl; [|discriminate].
  destruct (scrape_jobs _ _ _ _ _ _) as [e|[|r0 jobs_df]]; simpl;
    [discriminate | |].
  { intro H; inversion H; subst; simpl. split; [reflexivity | discriminate]. }
  destruct (str_contains re_compile _) as [contains|]; [|discriminate].
  set (df := not_isin (select_preserved_urls db) _).
  set (db1 := {| jobs := filter (fun j => negb (is_new j)) (jobs db);
                 seq := seq db |}).
  destruct (scrape_insert_rows_spec clock df 0 db1 0 0)
    as [ins [_ [_ [H3 H4]]]].
  destruct (scrape_insert_rows clock 0 df db1 0 0) as [[db2 a] s].
  simpl in *. intro H; inversion H; subst; simpl.
  split; [reflexivity|]. intros n Hn. inversion Hn. reflexivity.
Qed.

(** C1 (what the code does). The provider returns two rows with the same
    URL and the table is empty: one record is inserted, yet the
    reconciliation returns added = 2 and skipped = 0.  The CSV file holds
    one row whose URL is in the table already: the table stays as it was,
    yet the import reports 1 job added. *)
Theorem duplicate_url_counted_as_added :
  (let out := scrape_new_jobs true
                (provider_returning [sample_row "u1" "Engineer";
                                     sample_row "u1" "Engineer"])
                no_other_pattern sample_clock default_request init_db in
   fst out = Returned {| message := "Scraping complete"; added := 2;
                         skipped := 0; deleted := Some 0;
                         total_found := Some 2 |}
   /\ List.length (jobs (snd out)) = 1)
  /\
  import_csv sample_clock (Some [sample_row "u1" "Engineer"]) sample_db
  = (Returned 1, sample_db).
Proof.
  split; [split|]; reflexivity.
Qed.

(** The scenario of the specification: the table holds u1 (applied) and u2
    (new); the provider returns u1 and a senior role u3.  Only u1 is left,
    as it was; nothing is added and one record is deleted. *)
Example scrape_scenario :
  let out := scrape_new_jobs true
               (provider_returning [sample_row "u1" "Engineer";
                                    sample_row "u3" "Senior Engineer"])
               no_other_pattern sample_clock default_request sample_db in
  fst out = Returned {| message := "Scraping complete"; added := 0;
                        skipped := 0; deleted := Some 1;
                        total_found := Some 0 |}
  /\ jobs (snd out) = [sample_job 1 "u1" "applied" (Some "2024-05-03")].
Proof.
  split; reflexivity.
Qed.

(** C7 (what the code does). With the exclusion list ".net", the title
    "QA Network Engineer", in which ".net" does not occur, is excluded: the
    keyword is read as a regular expression, whose dot stands for the space
    in front of "Network".  Of the two rows of the provider only the other
    one reaches the table. *)
Theorem keyword_read_as_regular_expression :
  let request := {| search_query := None; request_location := Some "USA";
                    results_wanted := Some 100%Z; hours_old := Some 72%Z;
                    exclude_keywords := Some ".net" |} in
  let out := scrape_new_jobs true
               (provider_returning [sample_row "u1" "QA Network Engineer";
                                    sample_row "u2" "Tester"])
               no_other_pattern sample_clock request init_db in
  senior_keywords request = [".net"]
  /\ icontains ".net" "QA Network Engineer" = false
  /\ fst out = Returned {| message := "Scraping complete"; added := 1;
                           skipped := 0; deleted := Some 0;
                           total_found := Some 1 |}
  /\ map job_url (jobs (snd out)) = ["u2"].
Proof.
  repeat split.
Qed.

(** The default list on the patterns of the fragment: a title is excluded
    exactly when one of the default keywords occurs in it, letter case
    ignored. *)
Lemma seq_matches_literals (k t : list ascii) :
  seq_matches (map Lit k) t = iprefix k t.
Proof.
  revert t; induction k as [|x k IH]; intros [|c t]; simpl; auto.
  rewrite IH. reflexivity.
Qed.




Lemma existsb_orb_split (A : Type) (f g : A -> bool) (l : list A) :
  existsb (fun x => f x || g x) l = existsb f l || existsb g l.
Proof.
  induction l as [|x l IH]; simpl; [reflexivity|].
  rewrite IH. destruct (f x), (g x), (existsb f l); reflexivity.
Qed.

Lemma existsb_pointwise (A : Type) (f g : A -> bool) (l : list A) :
  (forall x, f x = g x) -> existsb f l = existsb g l.
Proof.
  intro H. induction l as [|x l IH]; simpl; [reflexivity|].
  rewrite H, IH. reflexivity.
Qed.



(** *** Keywords without pattern characters

    For such keywords the pattern [str.contains] is given means what the
    keywords say: a title is excluded exactly when one of them occurs in
    it, letter case ignored. *)
Lemma chars_append (a b : string) : chars (a ++ b) = chars a ++ chars b.
Proof.
  unfold chars. induction a as [|c a IH]; simpl; [reflexivity|].
  rewrite IH. reflexivity.
Qed.

Lemma chars_join (k k' : string) (ks : list string) :
  chars (join "|" (k :: k' :: ks))
  = chars k ++ "|"%char :: chars (join "|" (k' :: ks)).
Proof.
  unfold join. cbn [String.concat]. rewrite !chars_append. reflexivity.
Qed.

Lemma plain_char_not_bar (c : ascii) :
  plain_char c = true -> Ascii.eqb c "|" = false.
Proof.
  unfold plain_char. intro H. apply andb_true_iff in H. destruct H as [_ H].
  apply negb_true_iff in H. exact H.
Qed.

Lemma split_on_plain (k : list ascii) :
  forallb plain_char k = true -> split_on "|" k = [k].
Proof.
  induction k as [|c k IH]; simpl; intro H; [reflexivity|].
  apply andb_true_iff in H. destruct H as [Hc Hk].
  rewrite (plain_char_not_bar c Hc), (IH Hk). reflexivity.
Qed.

Lemma split_on_plain_bar (k rest : list ascii) :
  forallb plain_char k = true ->
  split_on "|" (k ++ "|"%char :: rest) = k :: split_on "|" rest.
Proof.
  induction k as [|c k IH]; simpl; intro H; [reflexivity|].
  apply andb_true_iff in H. destruct H as [Hc Hk].
  rewrite (plain_char_not_bar c Hc), (IH Hk). reflexivity.
Qed.

Lemma split_join_plain (k : string) (ks : list string) :
  forallb plain (k :: ks) = true ->
  split_on "|" (chars (join "|" (k :: ks))) = map chars (k :: ks).
Proof.
  revert k. induction ks as [|k' ks IH]; intros k H.
  - simpl in H. rewrite andb_true_r in H. simpl. apply split_on_plain.
    exact H.
  - rewrite chars_join. cbn [forallb] in H.
    apply andb_true_iff in H. destruct H as [Hk Hks].
    rewrite split_on_plain_bar by exact Hk.
    rewrite (IH k' Hks). reflexivity.
Qed.

Lemma parse_seq_plain (k : list ascii) :
  forallb plain_char k = true -> parse_seq k = Some (map Lit k).
Proof.
  induction k as [|c k IH]; simpl; intro H; [reflexivity|].
  apply andb_true_iff in H. destruct H as [Hc Hk].
  rewrite (IH Hk). unfold plain_char in Hc.
  apply andb_true_iff in Hc. destruct Hc as [Hc _].
  apply andb_true_iff in Hc. destruct Hc as [Hm Hd].
  apply negb_true_iff in Hm. apply negb_true_iff in Hd.
  rewrite Hm, Hd. reflexivity.
Qed.

Lemma parse_alts_plain (ks : list string) :
  forallb plain ks = true ->
  parse_alts (map chars ks) = Some (map (fun k => map Lit (chars k)) ks).
Proof.
  induction ks as [|k ks IH]; simpl; intro H; [reflexivity|].
  apply andb_true_iff in H. destruct H as [Hk Hks].
  rewrite (parse_seq_plain (chars k) Hk), (IH Hks). reflexivity.
Qed.

Lemma search_literals (ks : list string) (s : list ascii) :
  search_chars (map (fun k => map Lit (chars k)) ks) s
  = existsb (fun k => icontains_chars (chars k) s) ks.
Proof.
  assert (Hat : forall t,
            existsb (fun r => seq_matches r t)
                    (map (fun k => map Lit (chars k)) ks)
            = existsb (fun k => iprefix (chars k) t) ks).
  { intro t. induction ks as [|k ks IH]; simpl; [reflexivity|].
    rewrite seq_matches_literals, IH. reflexivity. }
  induction s as [|c s IH]; simpl search_chars.
  - rewrite Hat, orb_false_r. apply existsb_pointwise.
    intro k. simpl. rewrite orb_false_r. reflexivity.
  - rewrite Hat, IH, <- existsb_orb_split. reflexivity.
Qed.


(* ================================================================== *)
(** ** The theorems at concrete inputs *)
(* ================================================================== *)

(** Setting the curated record of [sample_db] to "applied" again succeeds,
    since a record with id 1 exists. *)
Lemma update_job_applied_at_witness :
  fst (update_job "2024-06-01" 1
         (mkJobUpdate None (Some "applied") None) sample_db)
  = Returned true.
Proof.
  apply (proj2 (proj1 (update_job_applied_at "2024-06-01" 1 None None
                         sample_db) "applied")).
  reflexivity.
Defined.


(** A provider that raises "timeout", on [sample_db]. *)
Lemma scrape_provider_failure_witness :
  scrape_new_jobs true (provider_raising "timeout") no_other_pattern
    sample_clock default_request sample_db
  = (HTTPException 500 "Scraping failed: timeout", sample_db).
Proof.
  apply (scrape_provider_failure (provider_raising "timeout")
           no_other_pattern sample_clock default_request sample_db
           "timeout").
  reflexivity.
Defined.

(** A provider that returns no row, on [sample_db]. *)
Lemma scrape_no_jobs_found_witness :
  scrape_new_jobs true (provider_returning []) no_other_pattern
    sample_clock default_request sample_db
  = (Returned {| message := "No jobs found"; added := 0; skipped := 0;
                 deleted := None; total_found := None |}, sample_db).
Proof.
  apply (scrape_no_jobs_found (provider_returning []) no_other_pattern
           sample_clock default_request sample_db).
  reflexivity.
Defined.

(* ================================================================== *)
(** ** More on GET /api/jobs: what each filter selects *)
(* ================================================================== *)

Lemma in_sort_by (before : Job -> Job -> bool) (rows : list Job) (j : Job) :
  In j (sort_by before rows) <-> In j rows.
Proof.
  split; apply Permutation_in;
    [apply Permutation_sym|]; apply sort_by_perm.
Qed.

Lemma in_get_jobs (q_status : option string) (q_checked : option bool)
    (q_search : option string) (db : Db) (j : Job) :
  In j (list_jobs (get_jobs q_status q_checked q_search db))
  <-> In j (jobs db) /\ where_clause q_status q_checked q_search j = true.
Proof.
  unfold get_jobs; simpl. rewrite in_sort_by. apply filter_In.
Qed.

Lemma filter_all (keep : Job -> bool) (rows : list Job) :
  (forall j, In j rows -> keep j = true) -> filter keep rows = rows.
Proof.
  induction rows as [|j rows IH]; simpl; intro H; [reflexivity|].
  rewrite (H j (or_introl eq_refl)). f_equal. apply IH.
  intros k Hk. apply H. right. exact Hk.
Qed.

(** Without filters, and with the status "all" and an empty search term,
    [get_jobs] returns every record of the table, each one once per row,
    and [total] is the size of the table. *)
Theorem get_jobs_unfiltered (db : Db) :
  Permutation (list_jobs (get_jobs None None None db)) (jobs db)
  /\ total (get_jobs None None None db) = List.length (jobs db)
  /\ get_jobs (Some "all") None (Some "") db = get_jobs None None None db.
Proof.
  assert (E : filter (where_clause None None None) (jobs db) = jobs db)
    by (apply filter_all; reflexivity).
  assert (P : Permutation (list_jobs (get_jobs None None None db)) (jobs db)).
  { unfold get_jobs; simpl. rewrite E.
    apply Permutation_sym, sort_by_perm. }
  split; [exact P|]. split; [|reflexivity].
  unfold get_jobs in *; simpl in *. apply Permutation_length. exact P.
Qed.

(** A status other than the empty string and "all" selects exactly the
    records that have this status, byte for byte. *)
Theorem get_jobs_status_exact (s : string) (db : Db) (j : Job)
    (Hs : truthy s = true) (Hall : s <> "all") :
  In j (list_jobs (get_jobs (Some s) None None db))
  <-> In j (jobs db) /\ status j = s.
Proof.
  rewrite in_get_jobs. unfold where_clause. rewrite Hs.
  apply String.eqb_neq in Hall. rewrite Hall. simpl.
  rewrite !andb_true_r, String.eqb_eq. reflexivity.
Qed.

(** The filter on [checked] selects exactly the records whose flag has the
    value asked for, together with whatever the other filters select. *)
Theorem get_jobs_checked_exact (q_status : option string) (c : bool)
    (q_search : option string) (db : Db) (j : Job) :
  In j (list_jobs (get_jobs q_status (Some c) q_search db))
  <-> In j (list_jobs (get_jobs q_status None q_search db))
      /\ checked j = c.
Proof.
  rewrite !in_get_jobs. unfold where_clause.
  rewrite !andb_true_iff, eqb_true_iff. tauto.
Qed.

(** *** The search term *)

Lemma like_percent (p s : list ascii) :
  like_chars ("%"%char :: p) s
  = like_chars p s
    || match s with
       | [] => false
       | _ :: s' => like_chars ("%"%char :: p) s'
       end.
Proof. destruct s; reflexivity. Qed.

Lemma like_only_percent (s : list ascii) : like_chars ["%"%char] s = true.
Proof.
  induction s as [|c s IH]; rewrite like_percent; [reflexivity|].
  rewrite IH. apply orb_true_r.
Qed.

Lemma like_prefix (q s : list ascii) :
  forallb (fun c => negb (Ascii.eqb c "%") && negb (Ascii.eqb c "_")) q
  = true ->
  like_chars (q ++ ["%"%char]) s = iprefix q s.
Proof.
  revert s. induction q as [|c q IH]; intros s H.
  - apply like_only_percent.
  - cbn [forallb] in H. apply andb_true_iff in H. destruct H as [Hc Hq].
    apply andb_true_iff in Hc. destruct Hc as [Hp Hu].
    apply negb_true_iff in Hp. apply negb_true_iff in Hu.
    cbn [app like_chars]. rewrite Hp, Hu.
    destruct s as [|d s]; [reflexivity|].
    cbn [iprefix orb]. rewrite (IH s Hq). reflexivity.
Qed.

Lemma like_contains (q s : list ascii) :
  forallb (fun c => negb (Ascii.eqb c "%") && negb (Ascii.eqb c "_")) q
  = true ->
  like_chars ("%"%char :: q ++ ["%"%char]) s = icontains_chars q s.
Proof.
  intro H. induction s as [|d s IH]; rewrite like_percent.
  - rewrite (like_prefix q [] H). reflexivity.
  - rewrite (like_prefix q (d :: s) H), IH. reflexivity.
Qed.

Lemma like_search_pattern (q v : string) :
  no_wildcard q = true -> like v ("%" ++ q ++ "%") = icontains q v.
Proof.
  intro H. unfold like, icontains.
  change (chars ("%" ++ q ++ "%"))
    with ("%"%char :: chars (q ++ "%")).
  rewrite chars_append. apply like_contains. exact H.
Qed.

(** A search term without [%] and [_] selects exactly the records in whose
    title, company or location the term occurs, letter case ignored. *)
Theorem get_jobs_search_substring (q : string) (db : Db) (j : Job)
    (Hq : truthy q = true) (Hw : no_wildcard q = true) :
  In j (list_jobs (get_jobs None None (Some q) db))
  <-> In j (jobs db)
      /\ (icontains q (title j) || icontains q (company j)
          || icontains q (location j)) = true.
Proof.
  rewrite in_get_jobs. unfold where_clause. rewrite Hq. simpl.
  rewrite !(like_search_pattern q _ Hw). reflexivity.
Qed.

(* ================================================================== *)
(** ** More on PATCH /api/jobs/{job_id} *)
(* ================================================================== *)

Lemma map_unchanged (f : Job -> Job) (rows : list Job) :
  (forall j, In j rows -> f j = j) -> map f rows = rows.
Proof.
  induction rows as [|j rows IH]; simpl; intro H; [reflexivity|].
  rewrite (H j (or_introl eq_refl)). f_equal. apply IH.
  intros k Hk. apply H. right. exact Hk.
Qed.

(** The table [update_job] leaves, on every path. *)
Lemma update_job_table (today : string) (job_id : Z) (update : JobUpdate)
    (db : Db) :
  snd (update_job today job_id update db)
  = {| jobs := map (updated today job_id update) (jobs db);
       seq := seq db |}.
Proof.
  unfold update_job, updated.
  destruct (update_assignments today update) as [|a sets] eqn:E.
  - simpl. rewrite map_unchanged.
    + destruct db; reflexivity.
    + intros j _. destruct (Z.eqb (id j) job_id); reflexivity.
  - unfold update_by_id.
    match goal with |- context [Nat.eqb ?n 0] => destruct (Nat.eqb n 0) end;
      reflexivity.
Qed.

Lemma Forall2_map_self (P : Job -> Job -> Prop) (f : Job -> Job)
    (rows : list Job) :
  (forall j, P j (f j)) -> Forall2 P rows (map f rows).
Proof.
  intro H. induction rows as [|j rows IH]; simpl; constructor; auto.
Qed.


Lemma count_rows_with_id (job_id : Z) (rows : list Job) :
  Nat.eqb (List.length (filter (fun j => Z.eqb (id j) job_id) rows)) 0
  = negb (existsb (fun j => Z.eqb (id j) job_id) rows).
Proof.
  induction rows as [|j rows IH]; simpl; [reflexivity|].
  destruct (Z.eqb (id j) job_id); simpl; [reflexivity | exact IH].
Qed.


(** Whatever the update, the table keeps its records in number and order,
    every record keeps its id, its URL and the other columns of the
    listing, a record with another id is left as it was, and the counter
    of rowids stays. *)
Theorem update_job_frame (today : string) (job_id : Z) (update : JobUpdate)
    (db : Db) :
  Forall2 (fun j j' => same_listing j j'
                       /\ (Z.eqb (id j) job_id = false -> j' = j))
          (jobs db) (jobs (snd (update_job today job_id update db)))
  /\ seq (snd (update_job today job_id update db)) = seq db.
Proof.
  rewrite update_job_table. simpl. split; [|reflexivity].
  apply Forall2_map_self. intro j. unfold updated, update_assignments.
  destruct (Z.eqb (id j) job_id).
  - split; [|discriminate].
    destruct update as [[c|] [s|] [n|]]; simpl;
      try destruct (String.eqb s "applied");
      simpl; unfold same_listing; simpl; repeat split.
  - split; [|reflexivity]. unfold same_listing. repeat split.
Qed.

(** In every record with the given id, each field the update supplies has
    the value supplied and each field it omits has the value it had. *)
Theorem update_job_fields (today : string) (job_id : Z) (update : JobUpdate)
    (db : Db) :
  Forall2
    (fun j j' =>
       Z.eqb (id j) job_id = true ->
       checked j' = match update_checked update with
                    | Some c => c
                    | None => checked j
                    end
       /\ status j' = match update_status update with
                      | Some s => s
                      | None => status j
                      end
       /\ notes j' = match update_notes update with
                     | Some n => n
                     | None => notes j
                     end)
    (jobs db) (jobs (snd (update_job today job_id update db))).
Proof.
  rewrite update_job_table. simpl.
  apply Forall2_map_self. intros j E. unfold updated, update_assignments.
  rewrite E.
  destruct update as [[c|] [s|] [n|]]; simpl;
    try destruct (String.eqb s "applied"); simpl; repeat split.
Qed.

Lemma updated_twice (today : string) (job_id : Z) (update : JobUpdate)
    (j : Job) :
  updated today job_id update (updated today job_id update j)
  = updated today job_id update j.
Proof.
  unfold updated, update_assignments.
  destruct (Z.eqb (id j) job_id) eqn:E.
  - destruct update as [[c|] [s|] [n|]]; simpl;
      try destruct (String.eqb s "applied"); simpl; rewrite ?E;
      reflexivity.
  - rewrite E. reflexivity.
Qed.

(** Sending the same update a second time on the same day changes nothing
    more: the table after two updates is the table after one. *)
Theorem update_job_idempotent (today : string) (job_id : Z)
    (update : JobUpdate) (db : Db) :
  snd (update_job today job_id update
         (snd (update_job today job_id update db)))
  = snd (update_job today job_id update db).
Proof.
  rewrite !update_job_table. simpl. f_equal.
  rewrite map_map. apply map_ext. intro j. apply updated_twice.
Qed.

(* ================================================================== *)
(** ** DELETE /api/jobs/{job_id}: what it removes *)
(* ================================================================== *)

Lemma delete_job_table (job_id : Z) (db : Db) :
  snd (delete_job job_id db)
  = {| jobs := filter (fun j => negb (Z.eqb (id j) job_id)) (jobs db);
       seq := seq db |}.
Proof.
  unfold delete_job, delete_by_id.
  match goal with |- context [Nat.eqb ?n 0] => destruct (Nat.eqb n 0) end;
    reflexivity.
Qed.

Lemma delete_job_response (job_id : Z) (db : Db) :
  fst (delete_job job_id db)
  = if existsb (fun j => Z.eqb (id j) job_id) (jobs db)
    then Returned true
    else HTTPException 404 "Job not found".
Proof.
  unfold delete_job, delete_by_id. rewrite count_rows_with_id.
  destruct (existsb (fun j => Z.eqb (id j) job_id) (jobs db)); reflexivity.
Qed.


(** A deletion for an id some record has succeeds; afterwards no record has
    this id, the records with another id are all there, unchanged and in
    their order, and the counter of rowids stays where it was, so that the
    id is not given out again. *)
Theorem delete_job_removes (job_id : Z) (db : Db)
    (Hid : existsb (fun j => Z.eqb (id j) job_id) (jobs db) = true) :
  fst (delete_job job_id db) = Returned true
  /\ existsb (fun j => Z.eqb (id j) job_id)
             (jobs (snd (delete_job job_id db))) = false
  /\ (forall other : Z, other <> job_id ->
        filter (fun j => Z.eqb (id j) other)
               (jobs (snd (delete_job job_id db)))
        = filter (fun j => Z.eqb (id j) other) (jobs db))
  /\ seq (snd (delete_job job_id db)) = seq db.
Proof.
  rewrite delete_job_response, delete_job_table, Hid. simpl.
  split; [reflexivity|]. split; [|split; [|reflexivity]].
  - clear Hid. induction (jobs db) as [|j rows IH]; simpl; [reflexivity|].
    destruct (Z.eqb (id j) job_id) eqn:E; simpl; [exact IH|].
    rewrite E. exact IH.
  - intros other Hne. clear Hid.
    induction (jobs db) as [|j rows IH]; simpl; [reflexivity|].
    destruct (Z.eqb (id j) job_id) eqn:E; simpl.
    + apply Z.eqb_eq in E.
      destruct (Z.eqb (id j) other) eqn:E'; [|exact IH].
      apply Z.eqb_eq in E'. congruence.
    + rewrite IH. reflexivity.
Qed.


(* ================================================================== *)
(** ** Invariants of the table over sequences of operations *)
(* ================================================================== *)

Lemma insert_or_ignore_shape (now : string) (r : Row)
    (date source : option string) (db db' : Db) :
  insert_or_ignore now r date source db = inr db' ->
  (has_url (row_job_url r) (jobs db) = true /\ db' = db)
  \/ (has_url (row_job_url r) (jobs db) = false
      /\ db' = {| jobs := jobs db
                          ++ [new_job (seq db + 1) now r date source];
                  seq := (seq db + 1)%Z |}).
Proof.
  unfold insert_or_ignore.
  destruct (has_url (row_job_url r) (jobs db)); intro H;
    inversion H; subst; auto.
Qed.

Section Invariant.
Variable Inv : Db -> Prop.

Hypothesis Inv_insert :
  forall now r date source db db',
    insert_or_ignore now r date source db = inr db' -> Inv db -> Inv db'.
Hypothesis Inv_delete_new : forall db, Inv db -> Inv (fst (delete_new db)).
Hypothesis Inv_update :
  forall today job_id update db,
    Inv db -> Inv (snd (update_job today job_id update db)).
Hypothesis Inv_delete :
  forall job_id db, Inv db -> Inv (snd (delete_job job_id db)).

Lemma scrape_insert_rows_keeps (clock : nat -> string) (rows : DataFrame) :
  forall (i : nat) (db : Db) (a s : nat),
  Inv db -> Inv (fst (fst (scrape_insert_rows clock i rows db a s))).
Proof.
  induction rows as [|r rows IH]; intros i db a s H; simpl; [exact H|].
  destruct (insert_or_ignore (clock i) r (parse_date (row_date_posted r))
              (Some (row_salary_source r)) db) as [[]|db'] eqn:E.
  - apply IH. exact H.
  - apply IH. eapply Inv_insert; eassumption.
Qed.

Lemma import_insert_rows_keeps (clock : nat -> string) (rows : DataFrame) :
  forall (i : nat) (db : Db) (a : nat),
  Inv db -> Inv (fst (import_insert_rows clock i rows db a)).
Proof.
  induction rows as [|r rows IH]; intros i db a H; simpl; [exact H|].
  destruct (insert_or_ignore (clock i) r (parse_date (row_date_posted r))
              None db) as [e|db'] eqn:E.
  - apply IH. exact H.
  - apply IH. eapply Inv_insert; eassumption.
Qed.

Lemma scrape_new_jobs_keeps (available : bool)
    (provider : list string -> string -> option string -> option Z ->
                option Z -> string -> string + DataFrame)
    (re_compile : string -> option (string -> bool))
    (clock : nat -> string) (request : ScrapeRequest) (db : Db) :
  Inv db ->
  Inv (snd (scrape_new_jobs available provider re_compile clock request db)).
Proof.
  intro H. unfold scrape_new_jobs.
  destruct available; simpl; [|exact H].
  destruct (provider _ _ _ _ _ _) as [e|[|r0 jobs_df]]; [exact H|exact H|].
  destruct (str_contains re_compile _) as [contains|]; [|exact H].
  set (df := not_isin (select_preserved_urls db) _).
  pose proof (scrape_insert_rows_keeps clock df 0 (fst (delete_new db)) 0 0
                (Inv_delete_new db H)) as HI.
  unfold delete_new in *. simpl in *.
  destruct (scrape_insert_rows clock 0 df _ 0 0) as [[db2 a] s].
  exact HI.
Qed.

Lemma run_keeps (ops : list operation) (db : Db) :
  Inv db -> Inv (run ops db).
Proof.
  unfold run. revert db.
  induction ops as [|o ops IH]; intros db H; simpl; [exact H|].
  apply IH. destruct o; simpl.
  - destruct (insert_or_ignore now r date source db) as [e|db'] eqn:E;
      [exact H | eapply Inv_insert; eassumption].
  - unfold import_csv. destruct csv as [df|]; [|exact H].
    pose proof (import_insert_rows_keeps clock df 0 db 0 H) as HI.
    destruct (import_insert_rows clock 0 df db 0) as [db' a]. exact HI.
  - apply scrape_new_jobs_keeps. exact H.
  - apply Inv_update. exact H.
  - apply Inv_delete. exact H.
Qed.
End Invariant.

Lemma filter_keeps_ids_distinct (keep : Job -> bool) (rows : list Job) :
  NoDup (map id rows) -> NoDup (map id (filter keep rows)).
Proof.
  intro Hnd. induction rows as [|j rows IH]; simpl in *; [constructor|].
  apply NoDup_cons_iff in Hnd. destruct Hnd as [Hnin Hnd].
  destruct (keep j); simpl; [|auto].
  apply NoDup_cons_iff. split; [|auto].
  rewrite in_map_iff. intros [k [Hk Hin]]. apply Hnin.
  rewrite <- Hk. apply in_map. apply filter_In in Hin. tauto.
Qed.

Lemma filter_keeps_Forall (P : Job -> Prop) (keep : Job -> bool)
    (rows : list Job) :
  Forall P rows -> Forall P (filter keep rows).
Proof.
  rewrite !Forall_forall. intros H j Hin. apply filter_In in Hin.
  apply H. tauto.
Qed.

Lemma updated_id (today : string) (job_id : Z) (update : JobUpdate)
    (j : Job) :
  id (updated today job_id update j) = id j.
Proof.
  unfold updated. destruct (Z.eqb (id j) job_id); [|reflexivity].
  generalize (update_assignments today update). intro sets. revert j.
  induction sets as [|a sets IH]; intro j; simpl; [reflexivity|].
  rewrite IH. apply assign_id.
Qed.

Lemma ids_fresh_insert (low : Z) (now : string) (r : Row)
    (date source : option string) (db db' : Db) :
  insert_or_ignore now r date source db = inr db' ->
  ids_fresh db /\ (low <= seq db)%Z -> ids_fresh db' /\ (low <= seq db')%Z.
Proof.
  intros E [[Hnd Hle] Hlow]. apply insert_or_ignore_shape in E.
  destruct E as [[_ ->] | [_ ->]]; [repeat split; assumption|].
  unfold ids_fresh; simpl. repeat split; [| |lia].
  - rewrite map_app. simpl.
    apply Permutation_NoDup with (l := (seq db + 1)%Z :: map id (jobs db)).
    + apply Permutation_cons_append.
    + constructor; [|exact Hnd]. rewrite in_map_iff.
      intros [j [Hj Hin]]. rewrite Forall_forall in Hle.
      specialize (Hle j Hin). lia.
  - apply Forall_app. split.
    + revert Hle. apply Forall_impl. intros j Hj. lia.
    + constructor; [simpl; lia | constructor].
Qed.

(** Starting from a table whose rowids are distinct and not above the
    counter, every sequence of operations leaves such a table, and the
    counter never goes down: an id, once given out, is never given to
    another record, not even after its record was deleted. *)
Theorem ids_stay_fresh (ops : list operation) (db : Db)
    (Hfresh : ids_fresh db) :
  ids_fresh (run ops db) /\ (seq db <= seq (run ops db))%Z.
Proof.
  apply (run_keeps (fun d => ids_fresh d /\ (seq db <= seq d)%Z)).
  - intros now r date source d d' E H.
    exact (ids_fresh_insert (seq db) now r date source d d' E H).
  - intros d [[Hnd Hle] Hlow]. unfold delete_new, ids_fresh; simpl.
    repeat split; [apply filter_keeps_ids_distinct; exact Hnd
                  | apply filter_keeps_Forall; exact Hle | exact Hlow].
  - intros today job_id update d [[Hnd Hle] Hlow].
    rewrite update_job_table. unfold ids_fresh; simpl.
    repeat split; [| |exact Hlow].
    + rewrite map_map.
      rewrite (map_ext _ id (updated_id today job_id update)). exact Hnd.
    + rewrite Forall_map. revert Hle. apply Forall_impl.
      intros j Hj. rewrite updated_id. exact Hj.
  - intros job_id d [[Hnd Hle] Hlow]. rewrite delete_job_table.
    unfold ids_fresh; simpl.
    repeat split; [apply filter_keeps_ids_distinct; exact Hnd
                  | apply filter_keeps_Forall; exact Hle | exact Hlow].
  - split; [exact Hfresh | lia].
Qed.

Lemma updated_applied_consistent (today : string) (job_id : Z)
    (update : JobUpdate) (j : Job) :
  (applied_at j <> None <-> status j = "applied") ->
  (applied_at (updated today job_id update j) <> None
   <-> status (updated today job_id update j) = "applied").
Proof.
  intro H. unfold updated, update_assignments.
  destruct (Z.eqb (id j) job_id); [|exact H].
  destruct update as [[c|] [s|] [n|]]; simpl;
    try (destruct (String.eqb_spec s "applied") as [He|Hne]; simpl;
         [split; [intros _; exact He | intros _; discriminate]
         | split; [intro Hc; exfalso; apply Hc; reflexivity
                  | intro Hc; exfalso; exact (Hne Hc)]]);
    exact H.
Qed.

(** Starting from a table in which [applied_at] is set exactly on the
    records with status "applied" (the empty table is one), every sequence
    of inserts, imports, reconciliations, updates and deletions leaves such
    a table. *)
Theorem applied_at_invariant (ops : list operation) (db : Db)
    (Hinv : applied_consistent db) :
  applied_consistent (run ops db).
Proof.
  apply (run_keeps applied_consistent); [| | | |exact Hinv].
  - intros now r date source d d' E H. apply insert_or_ignore_shape in E.
    destruct E as [[_ ->] | [_ ->]]; [exact H|].
    unfold applied_consistent; simpl. apply Forall_app. split; [exact H|].
    constructor; [|constructor]. simpl.
    split; [intro Hc; exfalso; apply Hc; reflexivity | discriminate].
  - intros d H. unfold delete_new, applied_consistent; simpl.
    apply filter_keeps_Forall. exact H.
  - intros today job_id update d H. rewrite update_job_table.
    unfold applied_consistent; simpl. rewrite Forall_map.
    revert H. apply Forall_impl. intro j.
    apply updated_applied_consistent.
  - intros job_id d H. rewrite delete_job_table.
    unfold applied_consistent; simpl. apply filter_keeps_Forall. exact H.
Qed.

(* ================================================================== *)
(** ** The insert loops: what they append *)
(* ================================================================== *)

Lemma scrape_insert_rows_table (clock : nat -> string) (rows : DataFrame) :
  forall (i : nat) (db : Db) (a s : nat),
  fst (fst (scrape_insert_rows clock i rows db a s))
  = inserted_table (fun r => Some (row_salary_source r)) clock i rows db.
Proof.
  induction rows as [|r rows IH]; intros i db a s; simpl; [reflexivity|].
  destruct (insert_or_ignore (clock i) r (parse_date (row_date_posted r))
              (Some (row_salary_source r)) db) as [[]|db']; apply IH.
Qed.

Lemma import_insert_rows_table (clock : nat -> string) (rows : DataFrame) :
  forall (i : nat) (db : Db) (a : nat),
  fst (import_insert_rows clock i rows db a)
  = inserted_table (fun _ => None) clock i rows db.
Proof.
  induction rows as [|r rows IH]; intros i db a; simpl; [reflexivity|].
  destruct (insert_or_ignore (clock i) r (parse_date (row_date_posted r))
              None db) as [e|db']; apply IH.
Qed.

Lemma has_url_app (u : string) (l m : list Job) :
  has_url u (l ++ m) = has_url u l || has_url u m.
Proof. unfold has_url. apply existsb_app. Qed.

Lemma created_after_weaken (low low' : Z) (source : Row -> option string)
    (r : Row) (rows : DataFrame) (ins : list Job) :
  (low <= low')%Z ->
  Forall (created_after low' source rows) ins ->
  Forall (created_after low source (r :: rows)) ins.
Proof.
  intro Hle. apply Forall_impl.
  intros j [r' [now [rowid [Hin [Hlt Hj]]]]].
  exists r', now, rowid. repeat split; [right; exact Hin | lia | exact Hj].
Qed.

(** What a loop of inserts leaves: the table it was given, then the records
    it appended, each made from one of the rows under a rowid above the old
    counter; and every URL of the rows is in the table. *)
Lemma inserted_table_spec (source : Row -> option string)
    (clock : nat -> string) (rows : DataFrame) :
  forall (i : nat) (db : Db),
  exists ins : list Job,
    jobs (inserted_table source clock i rows db) = jobs db ++ ins
    /\ (seq db <= seq (inserted_table source clock i rows db))%Z
    /\ Forall (created_after (seq db) source rows) ins
    /\ List.length ins <= List.length rows
    /\ (forall r, In r rows ->
          has_url (row_job_url r)
                  (jobs (inserted_table source clock i rows db)) = true).
Proof.
  induction rows as [|r rows IH]; intros i db; simpl.
  - exists []. rewrite app_nil_r.
    split; [reflexivity|]. split; [lia|]. split; [constructor|].
    split; [simpl; lia|]. intros r [].
  - destruct (insert_or_ignore (clock i) r (parse_date (row_date_posted r))
                (source r) db) as [e|db1] eqn:E.
    { destruct (insert_or_ignore_returns (clock i) r
                  (parse_date (row_date_posted r)) (source r) db) as [x Hx].
      congruence. }
    destruct (IH (S i) db1) as [ins [H1 [H2 [H3 [H4 H5]]]]].
    apply insert_or_ignore_shape in E.
    destruct E as [[Hhas ->] | [Hhas ->]].
    + exists ins.
      split; [exact H1|]. split; [exact H2|]. split; [|split].
      * apply created_after_weaken with (low' := seq db); [lia | exact H3].
      * simpl; lia.
      * intros r' [<- | Hin]; [|apply H5; exact Hin].
        rewrite H1, has_url_app, Hhas. reflexivity.
    + simpl in *.
      exists (new_job (seq db + 1) (clock i) r
                (parse_date (row_date_posted r)) (source r) :: ins).
      split; [rewrite H1, <- app_assoc; reflexivity|].
      split; [lia|]. split; [|split].
      * constructor.
        -- exists r, (clock i), (seq db + 1)%Z.
           split; [left; reflexivity|]. split; [lia | reflexivity].
        -- apply created_after_weaken with (low' := (seq db + 1)%Z);
             [lia | exact H3].
      * simpl; lia.
      * intros r' [<- | Hin]; [|apply H5; exact Hin].
        rewrite H1, !has_url_app. simpl.
        rewrite String.eqb_refl. simpl. rewrite orb_true_r. reflexivity.
Qed.



(* ================================================================== *)
(** ** More on POST /api/import-csv *)
(* ================================================================== *)

Lemma import_csv_some (clock : nat -> string) (df : DataFrame) (db : Db) :
  import_csv clock (Some df) db
  = (Returned (List.length df),
     inserted_table (fun _ => None) clock 0 df db).
Proof.
  unfold import_csv.
  pose proof (import_insert_rows_table clock df 0 db 0) as Ht.
  destruct (import_insert_rows_spec clock df 0 db 0) as [_ [_ [_ Hn]]].
  destruct (import_insert_rows clock 0 df db 0) as [db' a].
  simpl in *. subst. reflexivity.
Qed.

(** An import only adds.  Without the file it fails with status code 404
    and leaves the table; with the file, the records the table held stand
    where they stood, unchanged, followed by the imported ones; each of
    these is made from a row of the file, with a rowid above the old
    counter, status "new", unchecked, without notes, [applied_at] and
    [salary_source]; there are at most as many as the file has rows. *)
Theorem import_csv_additive (clock : nat -> string) (df : DataFrame)
    (db : Db) :
  import_csv clock None db = (HTTPException 404 "CSV file not found", db)
  /\ exists imported : list Job,
       jobs (snd (import_csv clock (Some df) db)) = jobs db ++ imported
       /\ Forall (created_after (seq db) (fun _ => None) df) imported
       /\ Forall (fun j => status j = "new" /\ checked j = false
                           /\ notes j = "" /\ applied_at j = None
                           /\ salary_source j = None
                           /\ (seq db < id j)%Z) imported
       /\ List.length imported <= List.length df.
Proof.
  split; [reflexivity|]. rewrite import_csv_some. simpl.
  destruct (inserted_table_spec (fun _ => None) clock df 0 db)
    as [ins [H1 [_ [H3 [H4 _]]]]].
  exists ins. split; [exact H1|]. split; [exact H3|]. split; [|exact H4].
  revert H3. apply Forall_impl.
  intros j [r [now [rowid [_ [Hlt ->]]]]]. simpl. repeat split. exact Hlt.
Qed.




(* ================================================================== *)
(** ** More on POST /api/scrape *)
(* ================================================================== *)


(** The reconciliation that runs to its end. *)
Lemma scrape_new_jobs_complete
    (provider : list string -> string -> option string -> option Z ->
                option Z -> string -> string + DataFrame)
    (re_compile : string -> option (string -> bool))
    (clock : nat -> string) (request : ScrapeRequest) (db : Db)
    (r0 : Row) (df : DataFrame) (contains : string -> bool) :
  provider target_sites
    (or_default (search_query request) default_search_query)
    (request_location request) (results_wanted request)
    (hours_old request) "USA" = inr (r0 :: df) ->
  str_contains re_compile (join "|" (senior_keywords request))
  = Some contains ->
  scrape_new_jobs true provider re_compile clock request db
  = (Returned
       {| message := "Scraping complete";
          added := List.length
                     (not_isin (select_preserved_urls db)
                        (head (results_wanted request)
                           (ranked (filter (fun r =>
                                              negb (contains (row_title r)))
                                           (r0 :: df)))));
          skipped := 0;
          deleted := Some (List.length (filter is_new (jobs db)));
          total_found :=
            Some (List.length
                    (not_isin (select_preserved_urls db)
                       (head (results_wanted request)
                          (ranked (filter (fun r =>
                                             negb (contains (row_title r)))
                                          (r0 :: df)))))) |},
     inserted_table (fun r => Some (row_salary_source r)) clock 0
       (not_isin (select_preserved_urls db)
          (head (results_wanted request)
             (ranked (filter (fun r => negb (contains (row_title r)))
                             (r0 :: df)))))
       (fst (delete_new db))).
Proof.
  intros Hp Hc. unfold scrape_new_jobs. cbn [negb]. rewrite Hp, Hc.
  fold (ranked (filter (fun r => negb (contains (row_title r))) (r0 :: df))).
  set (cand := not_isin (select_preserved_urls db) _).
  unfold delete_new. cbn [fst].
  set (db1 := {| jobs := filter (fun j => negb (is_new j)) (jobs db);
                 seq := seq db |}).
  pose proof (scrape_insert_rows_table clock cand 0 db1 0 0) as Ht.
  destruct (scrape_insert_rows_spec clock cand 0 db1 0 0)
    as [_ [_ [_ [Ha Hs]]]].
  destruct (scrape_insert_rows clock 0 cand db1 0 0) as [[db2 a] s].
  simpl in *. subst. reflexivity.
Qed.


Lemma in_head (n : option Z) (df : DataFrame) (r : Row) :
  In r (head n df) -> In r df.
Proof.
  unfold head. destruct n as [n|]; [|auto].
  destruct (0 <=? n)%Z; intro H.
  - rewrite <- (firstn_skipn (Z.to_nat n) df). apply in_or_app. left. exact H.
  - rewrite <- (firstn_skipn (List.length df - Z.to_nat (- n)) df).
    apply in_or_app. left. exact H.
Qed.

Lemma in_ranked (df : DataFrame) (r : Row) :
  In r (ranked df) -> exists r', In r' df /\ r = coerce_date_posted r'.
Proof.
  unfold ranked. intro H.
  apply (Permutation_in r
           (Permutation_sym (sort_by_perm Row newer_first _))) in H.
  apply in_map_iff in H. destruct H as [r' [Hr Hin]]. eauto.
Qed.

Lemma in_not_isin (urls : list string) (df : DataFrame) (r : Row) :
  In r (not_isin urls df) -> In r df /\ ~ In (row_job_url r) urls.
Proof.
  intro H. split.
  - unfold not_isin in H. apply filter_In in H. tauto.
  - apply (not_isin_In urls df). apply in_map. exact H.
Qed.

Lemma filter_new_of_curated (rows ins : list Job) :
  Forall (fun j => status j = "new") ins ->
  filter is_new (filter curated rows ++ ins) = ins.
Proof.
  intro H. rewrite filter_app.
  assert (E1 : filter is_new (filter curated rows) = []).
  { induction rows as [|j rows IH]; simpl; [reflexivity|].
    unfold curated at 1. destruct (is_new j) eqn:E; simpl; [exact IH|].
    rewrite E. exact IH. }
  rewrite E1. simpl. apply filter_all.
  intros j Hin. rewrite Forall_forall in H. unfold is_new.
  rewrite (H j Hin). reflexivity.
Qed.

(** A reconciliation that runs to its end refreshes the whole unreviewed
    pool: [deleted] is the number of records that had status "new", none
    of them is kept, and the records with status "new" afterwards are the
    ones this run inserted.  Each of them has a rowid above the old
    counter, is unchecked, without notes and [applied_at], and carries the
    title and URL of a row of the provider that the exclusion list let
    through and whose URL no curated record has. *)
Theorem scrape_refreshes_pool
    (provider : list string -> string -> option string -> option Z ->
                option Z -> string -> string + DataFrame)
    (re_compile : string -> option (string -> bool))
    (clock : nat -> string) (request : ScrapeRequest) (db : Db)
    (r0 : Row) (df : DataFrame) (contains : string -> bool)
    (Hp : provider target_sites
            (or_default (search_query request) default_search_query)
            (request_location request) (results_wanted request)
            (hours_old request) "USA" = inr (r0 :: df))
    (Hc : str_contains re_compile (join "|" (senior_keywords request))
          = Some contains) :
  exists (res : ScrapeResult) (inserted : list Job),
    fst (scrape_new_jobs true provider re_compile clock request db)
    = Returned res
    /\ jobs (snd (scrape_new_jobs true provider re_compile clock request
                     db))
       = filter curated (jobs db) ++ inserted
    /\ message res = "Scraping complete"
    /\ deleted res = Some (List.length (filter is_new (jobs db)))
    /\ filter is_new (filter curated (jobs db) ++ inserted) = inserted
    /\ List.length inserted <= added res
    /\ Forall
         (fun j =>
            (seq db < id j)%Z /\ status j = "new" /\ checked j = false
            /\ notes j = "" /\ applied_at j = None
            /\ exists r, In r (r0 :: df)
                 /\ contains (row_title r) = false
                 /\ title j = row_title r /\ job_url j = row_job_url r
                 /\ ~ In (job_url j) (select_preserved_urls db))
         inserted.
Proof.
  rewrite (scrape_new_jobs_complete provider re_compile clock request db
             r0 df contains Hp Hc).
  set (cand := not_isin (select_preserved_urls db) _).
  destruct (inserted_table_spec (fun r => Some (row_salary_source r)) clock
              cand 0 (fst (delete_new db))) as [ins [H1 [_ [H3 [H4 _]]]]].
  assert (Hall : Forall
            (fun j =>
               (seq db < id j)%Z /\ status j = "new" /\ checked j = false
               /\ notes j = "" /\ applied_at j = None
               /\ exists r, In r (r0 :: df)
                    /\ contains (row_title r) = false
                    /\ title j = row_title r /\ job_url j = row_job_url r
                    /\ ~ In (job_url j) (select_preserved_urls db)) ins).
  { revert H3. apply Forall_impl.
    intros j [r [now [rowid [Hin [Hlt ->]]]]]. simpl in Hlt. simpl.
    repeat split; [exact Hlt|].
    unfold cand in Hin. apply in_not_isin in Hin. destruct Hin as [Hin Hnp].
    apply in_head in Hin. apply in_ranked in Hin.
    destruct Hin as [r' [Hin ->]]. apply filter_In in Hin.
    destruct Hin as [Hin Hneg]. apply negb_true_iff in Hneg.
    exists r'. repeat split; assumption. }
  eexists. exists ins.
  split; [reflexivity|]. split; [exact H1|].
  split; [reflexivity|]. split; [reflexivity|].
  split; [|split; [exact H4 | exact Hall]].
  apply filter_new_of_curated. revert Hall. apply Forall_impl. tauto.
Qed.

(** With [results_wanted] a number [n] that is not negative, a
    reconciliation that runs to its end reports at most [n] records as
    found and as added, and leaves at most [n] records with status "new"
    in the table. *)
Theorem scrape_respects_limit
    (provider : list string -> string -> option string -> option Z ->
                option Z -> string -> string + DataFrame)
    (re_compile : string -> option (string -> bool))
    (clock : nat -> string) (request : ScrapeRequest) (db : Db)
    (r0 : Row) (df : DataFrame) (contains : string -> bool) (n : Z)
    (Hp : provider target_sites
            (or_default (search_query request) default_search_query)
            (request_location request) (results_wanted request)
            (hours_old request) "USA" = inr (r0 :: df))
    (Hc : str_contains re_compile (join "|" (senior_keywords request))
          = Some contains)
    (Hwanted : results_wanted request = Some n) (Hn : (0 <= n)%Z) :
  exists res : ScrapeResult,
    fst (scrape_new_jobs true provider re_compile clock request db)
    = Returned res
    /\ added res <= Z.to_nat n
    /\ total_found res = Some (added res)
    /\ List.length
         (filter is_new
            (jobs (snd (scrape_new_jobs true provider re_compile clock
                          request db))))
       <= Z.to_nat n.
Proof.
  rewrite (scrape_new_jobs_complete provider re_compile clock request db
             r0 df contains Hp Hc).
  set (cand := not_isin (select_preserved_urls db) _).
  assert (Hlen : List.length cand <= Z.to_nat n).
  { unfold cand, not_isin. rewrite Hwanted. unfold head.
    apply Z.leb_le in Hn. rewrite Hn.
    eapply Nat.le_trans; [apply filter_length_le | apply firstn_le_length]. }
  destruct (inserted_table_spec (fun r => Some (row_salary_source r)) clock
              cand 0 (fst (delete_new db))) as [ins [H1 [_ [H3 [H4 _]]]]].
  eexists. split; [reflexivity|]. cbn [added total_found snd].
  split; [exact Hlen|]. split; [reflexivity|].
  rewrite H1. unfold delete_new; simpl.
  change (fun j => negb (is_new j)) with curated.
  rewrite filter_new_of_curated; [lia|].
  revert H3. apply Forall_impl.
  intros j [r [now [rowid [_ [_ ->]]]]]. reflexivity.
Qed.

Lemma filter_nothing (keep : Row -> bool) (df : DataFrame) :
  (forall r, keep r = false) -> filter keep df = [].
Proof.
  intro H. induction df as [|r df IH]; simpl; [reflexivity|].
  rewrite H. exact IH.
Qed.

Lemma head_nil (n : option Z) : head n [] = [].
Proof.
  unfold head. destruct n as [n|]; [|reflexivity].
  destruct (0 <=? n)%Z; apply firstn_nil.
Qed.

(** An empty keyword excludes every row.  When the exclusion list of the
    request, split at its commas and stripped, holds an empty keyword (as
    with a trailing comma) and no character with a meaning in a pattern,
    the reconciliation still deletes the records with status "new" and
    then inserts nothing: it reports none found and none added. *)
Theorem scrape_empty_keyword
    (provider : list string -> string -> option string -> option Z ->
                option Z -> string -> string + DataFrame)
    (re_compile : string -> option (string -> bool))
    (clock : nat -> string) (request : ScrapeRequest) (db : Db)
    (r0 : Row) (df : DataFrame)
    (Hp : provider target_sites
            (or_default (search_query request) default_search_query)
            (request_location request) (results_wanted request)
            (hours_old request) "USA" = inr (r0 :: df))
    (Hplain : forallb plain (senior_keywords request) = true)
    (Hempty : In "" (senior_keywords request)) :
  scrape_new_jobs true provider re_compile clock request db
  = (Returned {| message := "Scraping complete"; added := 0; skipped := 0;
                 deleted := Some (List.length (filter is_new (jobs db)));
                 total_found := Some 0 |},
     {| jobs := filter curated (jobs db); seq := seq db |}).
Proof.
  destruct (senior_keywords request) as [|k ks] eqn:Ek; [destruct Hempty|].
  assert (Hc : str_contains re_compile (join "|" (senior_keywords request))
               = Some (re_search (map (fun k => map Lit (chars k))
                                      (k :: ks)))).
  { rewrite Ek. unfold str_contains, parse_pattern.
    rewrite (split_join_plain k ks Hplain), (parse_alts_plain (k :: ks) Hplain).
    reflexivity. }
  rewrite (scrape_new_jobs_complete provider re_compile clock request db
             r0 df _ Hp Hc).
  rewrite (filter_nothing _ (r0 :: df)).
  - unfold ranked. simpl. rewrite head_nil. reflexivity.
  - intro r. apply negb_false_iff. unfold re_search.
    rewrite search_literals. apply existsb_exists.
    exists "". split; [exact Hempty|]. destruct (chars (row_title r));
      reflexivity.
Qed.

(** *** Which rows the truncation keeps *)

Lemma timestamp_compare_flip (a b : Timestamp) :
  timestamp_compare a b = Lt -> timestamp_compare b a = Gt.
Proof.
  unfold timestamp_compare.
  destruct (Nat.compare_spec (year a) (year b)) as [Ey|Ly|Gy];
    destruct (Nat.compare_spec (year b) (year a)) as [Ey'|Ly'|Gy'];
    try lia; try discriminate; try reflexivity.
  destruct (Nat.compare_spec (month a) (month b)) as [Em|Lm|Gm];
    destruct (Nat.compare_spec (month b) (month a)) as [Em'|Lm'|Gm'];
    try lia; try discriminate; try reflexivity.
  destruct (Nat.compare_spec (day a) (day b)) as [Ed|Ld|Gd];
    destruct (Nat.compare_spec (day b) (day a)) as [Ed'|Ld'|Gd'];
    try lia; try discriminate; try reflexivity.
Qed.

Lemma timestamp_compare_chain (a b c : Timestamp) :
  timestamp_compare a b <> Lt -> timestamp_compare b c <> Lt ->
  timestamp_compare a c <> Lt.
Proof.
  unfold timestamp_compare.
  destruct (Nat.compare_spec (year a) (year b)),
           (Nat.compare_spec (year b) (year c)),
           (Nat.compare_spec (year a) (year c));
    try lia; try congruence;
  destruct (Nat.compare_spec (month a) (month b)),
           (Nat.compare_spec (month b) (month c)),
           (Nat.compare_spec (month a) (month c));
    try lia; try congruence;
  destruct (Nat.compare_spec (day a) (day b)),
           (Nat.compare_spec (day b) (day c)),
           (Nat.compare_spec (day a) (day c));
    try lia; try congruence.
Qed.

Lemma newer_first_total (a b : Row) :
  newer_first a b = false -> newer_first b a = true.
Proof.
  unfold newer_first.
  destruct (row_date_posted a) as [|x|s], (row_date_posted b) as [|y|t];
    try discriminate; try reflexivity.
  destruct (timestamp_compare x y) eqn:E; try discriminate.
  intros _. rewrite (timestamp_compare_flip x y E). reflexivity.
Qed.

Lemma newer_first_trans (a b c : Row) :
  newer_first a b = true -> newer_first b c = true ->
  newer_first a c = true.
Proof.
  unfold newer_first.
  destruct (row_date_posted a) as [|x|s], (row_date_posted b) as [|y|t],
           (row_date_posted c) as [|z|u];
    try discriminate; try reflexivity.
  pose proof (timestamp_compare_chain x y z) as H.
  destruct (timestamp_compare x y), (timestamp_compare y z),
           (timestamp_compare x z);
    try discriminate; try reflexivity;
    intros _ _; exfalso; apply H; congruence.
Qed.

(** The truncation to [n] rows keeps the newest: the ranked rows are those
    of the provider with their dates coerced, no row that is cut off has a
    later date than a row that is kept, and a row without a readable date
    is kept only if every row cut off has none either. *)
Theorem truncation_keeps_newest (n : Z) (df : DataFrame) (Hn : (0 <= n)%Z) :
  Permutation (ranked df) (map coerce_date_posted df)
  /\ head (Some n) (ranked df) ++ skipn (Z.to_nat n) (ranked df)
     = ranked df
  /\ forall kept cut : Row,
       In kept (head (Some n) (ranked df)) ->
       In cut (skipn (Z.to_nat n) (ranked df)) ->
       newer_first kept cut = true
       /\ (forall t, row_date_posted cut = Date t ->
             exists t', row_date_posted kept = Date t'
                        /\ timestamp_compare t' t <> Lt).
Proof.
  assert (Hhead : head (Some n) (ranked df)
                  = firstn (Z.to_nat n) (ranked df)).
  { unfold head. apply Z.leb_le in Hn. rewrite Hn. reflexivity. }
  rewrite Hhead.
  split; [apply Permutation_sym, sort_by_perm|].
  split; [apply firstn_skipn|].
  assert (HS : StronglySorted (fun a b => newer_first a b = true)
                              (ranked df)).
  { apply Sorted_StronglySorted.
    - intros a b c. apply newer_first_trans.
    - apply sort_by_sorted. exact newer_first_total. }
  rewrite <- (firstn_skipn (Z.to_nat n) (ranked df)) in HS.
  intros kept cut Hk Hcut.
  assert (Hnf : newer_first kept cut = true).
  { revert HS Hk. generalize (firstn (Z.to_nat n) (ranked df)).
    intros l HS Hk. induction l as [|x l IH]; [destruct Hk|].
    simpl in HS. inversion HS as [|? ? HS' Hall]; subst.
    destruct Hk as [<- | Hk]; [|apply IH; assumption].
    rewrite Forall_forall in Hall. apply Hall.
    apply in_or_app. right. exact Hcut. }
  split; [exact Hnf|].
  intros t Ht. unfold newer_first in Hnf. rewrite Ht in Hnf.
  destruct (row_date_posted kept) as [|t'|s]; try discriminate.
  exists t'. split; [reflexivity|].
  destruct (timestamp_compare t' t); congruence.
Qed.

(* ================================================================== *)
(** ** GET /api/stats: the counts add up *)
(* ================================================================== *)

Lemma group_count_keys (key : Job -> string) (rows : list Job) :
  map fst (group_count key rows)
  = sort_by text_leb (nodup string_dec (map key rows)).
Proof.
  unfold group_count. rewrite map_map. simpl. apply map_id.
Qed.

Lemma group_keys_distinct (key : Job -> string) (rows : list Job) :
  NoDup (sort_by text_leb (nodup string_dec (map key rows))).
Proof.
  eapply Permutation_NoDup; [apply sort_by_perm | apply NoDup_nodup].
Qed.

Lemma group_keys_cover (key : Job -> string) (rows : list Job) (k : string) :
  In k (sort_by text_leb (nodup string_dec (map key rows)))
  <-> In k (map key rows).
Proof.
  split; intro H.
  - apply (nodup_In string_dec).
    apply (Permutation_in k (Permutation_sym (sort_by_perm _ text_leb _)) H).
  - apply (Permutation_in k (sort_by_perm _ text_leb _)).
    apply (nodup_In string_dec). exact H.
Qed.

Lemma dict_get_tabulate (f : string -> nat) (keys : list string)
    (k : string) :
  dict_get k (map (fun x => (x, f x)) keys)
  = if existsb (String.eqb k) keys then Some (f k) else None.
Proof.
  induction keys as [|x keys IH]; simpl; [reflexivity|].
  rewrite (String.eqb_sym k x).
  destruct (String.eqb_spec x k) as [->|Hne]; simpl; [reflexivity | exact IH].
Qed.

Lemma count_with_zero (key : Job -> string) (rows : list Job) (k : string) :
  Nat.eqb (count_with key k rows) 0
  = negb (existsb (String.eqb k) (map key rows)).
Proof.
  unfold count_with. induction rows as [|j rows IH]; simpl; [reflexivity|].
  rewrite (String.eqb_sym k (key j)).
  destruct (String.eqb (key j) k); simpl; [reflexivity | exact IH].
Qed.

Lemma existsb_same_members (k : string) (l m : list string) :
  (forall x, In x l <-> In x m) ->
  existsb (String.eqb k) l = existsb (String.eqb k) m.
Proof.
  intro H.
  destruct (existsb (String.eqb k) l) eqn:El;
    destruct (existsb (String.eqb k) m) eqn:Em; try reflexivity.
  - apply existsb_exists in El. destruct El as [x [Hx Hk]].
    assert (Ht : existsb (String.eqb k) m = true)
      by (apply existsb_exists; exists x; split; [apply H; exact Hx | exact Hk]).
    congruence.
  - apply existsb_exists in Em. destruct Em as [x [Hx Hk]].
    assert (Ht : existsb (String.eqb k) l = true)
      by (apply existsb_exists; exists x; split; [apply H; exact Hx | exact Hk]).
    congruence.
Qed.

Lemma one_key_matches (k : string) (keys : list string) :
  NoDup keys -> In k keys ->
  list_sum (map (fun x => if String.eqb k x then 1 else 0) keys) = 1.
Proof.
  induction keys as [|x keys IH]; intros Hnd Hin; [destruct Hin|].
  inversion Hnd as [|? ? Hnin Hnd']; subst. simpl.
  destruct (String.eqb_spec k x) as [->|Hne].
  - assert (Hz : list_sum (map (fun y => if String.eqb x y then 1 else 0)
                               keys) = 0).
    { clear - Hnin. induction keys as [|y keys IH]; simpl; [reflexivity|].
      destruct (String.eqb_spec x y) as [->|Hne].
      - exfalso. apply Hnin. left. reflexivity.
      - apply IH. intro H. apply Hnin. right. exact H. }
    rewrite Hz. reflexivity.
  - destruct Hin as [->|Hin]; [congruence|]. simpl. apply IH; assumption.
Qed.

Lemma list_sum_pointwise (f g : string -> nat) (keys : list string) :
  list_sum (map (fun x => f x + g x) keys)
  = list_sum (map f keys) + list_sum (map g keys).
Proof.
  induction keys as [|x keys IH]; simpl; [reflexivity|]. rewrite IH. lia.
Qed.

Lemma counts_sum_to_length (key : Job -> string) (keys : list string)
    (rows : list Job) :
  NoDup keys -> (forall j, In j rows -> In (key j) keys) ->
  list_sum (map (fun k => count_with key k rows) keys) = List.length rows.
Proof.
  intros Hnd. induction rows as [|j rows IH]; intro Hcov.
  - unfold count_with. simpl. clear.
    induction keys as [|x keys IHk]; simpl; [reflexivity | exact IHk].
  - rewrite (map_ext _ (fun k => (if String.eqb (key j) k then 1 else 0)
                                 + count_with key k rows)).
    + rewrite list_sum_pointwise, one_key_matches, IH; auto.
      * intros i Hi. apply Hcov. right. exact Hi.
      * apply Hcov. left. reflexivity.
    + intro k. unfold count_with. simpl.
      destruct (String.eqb (key j) k); reflexivity.
Qed.

(** The dict of a GROUP BY: an entry for each value some record has, none
    for any other, each entry the number of records with the value, no key
    twice, and the entries add up to the number of records. *)
Lemma group_count_spec (key : Job -> string) (rows : list Job) :
  NoDup (map fst (group_count key rows))
  /\ (forall k,
        dict_get k (group_count key rows)
        = if Nat.eqb (count_with key k rows) 0 then None
          else Some (count_with key k rows))
  /\ list_sum (map snd (group_count key rows)) = List.length rows.
Proof.
  split; [|split].
  - rewrite group_count_keys. apply group_keys_distinct.
  - intro k. unfold group_count.
    rewrite (dict_get_tabulate (fun x => count_with key x rows)).
    rewrite count_with_zero.
    rewrite (existsb_same_members k _ (map key rows)
               (group_keys_cover key rows)).
    destruct (existsb (String.eqb k) (map key rows)); reflexivity.
  - unfold group_count. rewrite map_map. simpl.
    apply counts_sum_to_length; [apply group_keys_distinct|].
    intros j Hin. apply group_keys_cover. apply in_map. exact Hin.
Qed.

Lemma checked_split (rows : list Job) :
  List.length (filter checked rows)
  + List.length (filter (fun j => negb (checked j)) rows)
  = List.length rows.
Proof.
  induction rows as [|j rows IH]; simpl; [reflexivity|].
  destruct (checked j); simpl; lia.
Qed.

(** [total] is the number of records, [checked] the number of checked
    ones, [unchecked] the number of the others, and [checked] and
    [unchecked] add up to [total]. *)
Theorem get_stats_checked_split (db : Db) :
  stats_total (get_stats db) = List.length (jobs db)
  /\ stats_checked (get_stats db) = List.length (filter checked (jobs db))
  /\ unchecked (get_stats db)
     = List.length (filter (fun j => negb (checked j)) (jobs db))
  /\ stats_checked (get_stats db) + unchecked (get_stats db)
     = stats_total (get_stats db).
Proof.
  unfold get_stats; simpl.
  pose proof (checked_split (jobs db)) as H.
  repeat split; lia.
Qed.

(** [by_status] and [by_site] have one entry for each status, or site,
    that some record has, and none for any other; the entry is the number
    of records with it; and the entries of each dict add up to [total]. *)
Theorem get_stats_groups (db : Db) :
  (forall s,
     dict_get s (by_status (get_stats db))
     = if Nat.eqb (count_with status s (jobs db)) 0 then None
       else Some (count_with status s (jobs db)))
  /\ (forall s,
        dict_get s (by_site (get_stats db))
        = if Nat.eqb (count_with site s (jobs db)) 0 then None
          else Some (count_with site s (jobs db)))
  /\ NoDup (map fst (by_status (get_stats db)))
  /\ NoDup (map fst (by_site (get_stats db)))
  /\ list_sum (map snd (by_status (get_stats db)))
     = stats_total (get_stats db)
  /\ list_sum (map snd (by_site (get_stats db)))
     = stats_total (get_stats db).
Proof.
  unfold get_stats; simpl.
  destruct (group_count_spec status (jobs db)) as [A1 [A2 A3]].
  destruct (group_count_spec site (jobs db)) as [B1 [B2 B3]].
  repeat split; assumption.
Qed.

(* ================================================================== *)
(** ** The stored dates order as the days do *)
(* ================================================================== *)







(* ================================================================== *)
(** ** The further properties at concrete inputs *)
(* ================================================================== *)

(** The status "applied" selects the curated record of [sample_db]. *)
Lemma get_jobs_status_exact_witness :
  In (sample_job 1 "u1" "applied" (Some "2024-05-03"))
     (list_jobs (get_jobs (Some "applied") None None sample_db)).
Proof.
  apply (proj2 (get_jobs_status_exact "applied" sample_db
                  (sample_job 1 "u1" "applied" (Some "2024-05-03"))
                  eq_refl ltac:(discriminate))).
  split; [left; reflexivity | reflexivity].
Defined.

(** The term "init" finds the records of the company Initech. *)
Lemma get_jobs_search_substring_witness :
  In (sample_job 2 "u2" "new" None)
     (list_jobs (get_jobs None None (Some "init") sample_db)).
Proof.
  apply (proj2 (get_jobs_search_substring "init" sample_db
                  (sample_job 2 "u2" "new" None) eq_refl eq_refl)).
  split; [right; left; reflexivity | reflexivity].
Defined.



(** Deleting the record 2 of [sample_db]. *)
Lemma delete_job_removes_witness :
  fst (delete_job 2 sample_db) = Returned true
  /\ seq (snd (delete_job 2 sample_db)) = 2%Z.
Proof.
  destruct (delete_job_removes 2 sample_db eq_refl) as [H1 [_ [_ H4]]].
  split; [exact H1 | exact H4].
Defined.

(** An import, a deletion and a reconciliation from the empty table. *)
Lemma ids_stay_fresh_witness :
  ids_fresh
    (run [ImportCsv sample_clock
            (Some [sample_row "u1" "Engineer"; sample_row "u2" "Tester"]);
          Delete 2;
          Reconcile true
            (provider_returning [sample_row "u3" "Developer"])
            no_other_pattern sample_clock default_request]
         init_db).
Proof.
  apply (ids_stay_fresh _ init_db).
  split; constructor.
Defined.

Lemma applied_at_invariant_witness :
  applied_consistent
    (run [ImportCsv sample_clock (Some [sample_row "u1" "Engineer"]);
          Update "2024-06-01" 1 (mkJobUpdate None (Some "applied") None);
          Update "2024-06-02" 1 (mkJobUpdate None (Some "rejected") None)]
         init_db).
Proof.
  apply (applied_at_invariant _ init_db). constructor.
Defined.




(** The scenario of the specification, run to its end on [sample_db]. *)
Lemma scrape_refreshes_pool_witness :
  exists (res : ScrapeResult) (inserted : list Job),
    fst (scrape_new_jobs true
           (provider_returning [sample_row "u1" "Engineer";
                                sample_row "u3" "Developer"])
           no_other_pattern sample_clock default_request sample_db)
    = Returned res
    /\ deleted res = Some 1
    /\ List.length inserted <= added res.
Proof.
  destruct (scrape_refreshes_pool
              (provider_returning [sample_row "u1" "Engineer";
                                   sample_row "u3" "Developer"])
              no_other_pattern sample_clock default_request sample_db
              (sample_row "u1" "Engineer") [sample_row "u3" "Developer"]
              default_contains eq_refl eq_refl)
    as [res [ins [H1 [_ [_ [H4 [_ [H6 _]]]]]]]].
  exists res, ins. split; [exact H1|]. split; [exact H4 | exact H6].
Defined.

Lemma scrape_respects_limit_witness :
  exists res : ScrapeResult,
    fst (scrape_new_jobs true
           (provider_returning [sample_row "u1" "Engineer";
                                sample_row "u3" "Developer"])
           no_other_pattern sample_clock default_request sample_db)
    = Returned res
    /\ added res <= 100.
Proof.
  destruct (scrape_respects_limit
              (provider_returning [sample_row "u1" "Engineer";
                                   sample_row "u3" "Developer"])
              no_other_pattern sample_clock default_request sample_db
              (sample_row "u1" "Engineer") [sample_row "u3" "Developer"]
              default_contains 100 eq_refl eq_refl eq_refl
              ltac:(discriminate))
    as [res [H1 [H2 _]]].
  exists res. split; [exact H1 | exact H2].
Defined.

(** The exclusion list "senior," has a trailing comma. *)
Lemma scrape_empty_keyword_witness :
  scrape_new_jobs true
    (provider_returning [sample_row "u3" "Developer"])
    no_other_pattern sample_clock
    (mkScrapeRequest None (Some "USA") (Some 100%Z) (Some 72%Z)
       (Some "senior,"))
    sample_db
  = (Returned {| message := "Scraping complete"; added := 0; skipped := 0;
                 deleted := Some 1; total_found := Some 0 |},
     {| jobs := [sample_job 1 "u1" "applied" (Some "2024-05-03")];
        seq := 2 |}).
Proof.
  apply (scrape_empty_keyword
           (provider_returning [sample_row "u3" "Developer"])
           no_other_pattern sample_clock
           (mkScrapeRequest None (Some "USA") (Some 100%Z) (Some 72%Z)
              (Some "senior,"))
           sample_db (sample_row "u3" "Developer") []).
  - reflexivity.
  - reflexivity.
  - right; left; reflexivity.
Defined.

(** Two rows and room for one. *)
Lemma truncation_keeps_newest_witness :
  Permutation
    (ranked [sample_row "u1" "Engineer"; sample_row "u3" "Developer"])
    (map coerce_date_posted
       [sample_row "u1" "Engineer"; sample_row "u3" "Developer"]).
Proof.
  apply (truncation_keeps_newest 1
           [sample_row "u1" "Engineer"; sample_row "u3" "Developer"]).
  discriminate.
Defined.


